(** * ProcessFlow AI: the BPMN renderer and the generate handler of [app.py]

    A shallow embedding of [generate_bpmn_diagram], [get_structured_process_flow]
    and the generate branch of [main], over JSON values as [json.loads] builds
    them, with Python's exceptions as an error result. *)

From Stdlib Require Import List String Ascii ZArith Bool Arith Lia.
From Stdlib Require Import DecimalString FinFun.
Import ListNotations.
Local Open Scope string_scope.
Local Open Scope list_scope.

Set Warnings "-register-all".

(** ** Python values and exceptions *)

(** What [json.loads] returns: [None], [bool], [int], [str], [list], [dict].
    A [dict] is kept as its entries in insertion order; the entry of a key is
    the first one that carries it.  Numbers are integers: the process-graph
    schema has no numeric field, and floating point is left out. *)
Inductive json : Type :=
| JNull
| JBool (b : bool)
| JInt (n : Z)
| JStr (s : string)
| JList (items : list json)
| JDict (entries : list (string * json)).

Inductive exn : Type :=
| KeyError (key : string)
| TypeError
| AttributeError
| IndexError.

(** A call either raises ([inl]) or returns ([inr]). *)
Definition result (A : Type) : Type := (exn + A)%type.

Definition raise {A : Type} (e : exn) : result A := inl e.
Definition ret {A : Type} (a : A) : result A := inr a.

Arguments raise {A} e /.
Arguments ret {A} a /.

Definition bind {A B : Type} (m : result A) (k : A -> result B) : result B :=
  match m with
  | inl e => inl e
  | inr a => k a
  end.

Notation "x <- m ;; k" := (bind m (fun x => k))
  (at level 61, m at next level, right associativity).

(** [for x in l: body], threading the state the body mutates. *)
Fixpoint for_each {A S : Type} (body : A -> S -> result S) (l : list A) (s : S)
  : result S :=
  match l with
  | [] => ret s
  | x :: l' => s' <- body x s ;; for_each body l' s'
  end.

(** [enumerate(l)]. *)
Fixpoint enumerate_from {A : Type} (start : nat) (l : list A) : list (nat * A) :=
  match l with
  | [] => []
  | x :: l' => (start, x) :: enumerate_from (S start) l'
  end.

Definition enumerate {A : Type} (l : list A) : list (nat * A) := enumerate_from 0 l.

Fixpoint lookup (k : string) (entries : list (string * json)) : option json :=
  match entries with
  | [] => None
  | (k', v) :: rest => if String.eqb k k' then Some v else lookup k rest
  end.

(** [d.get(k, default)]: only a [dict] has the method. *)
Definition py_get (d : json) (k : string) (default : json) : result json :=
  match d with
  | JDict entries =>
      match lookup k entries with
      | Some v => ret v
      | None => ret default
      end
  | _ => raise AttributeError
  end.

(** [d[k]] with a [str] subscript: [KeyError] on a [dict] without the key,
    [TypeError] on every other value. *)
Definition py_getitem (d : json) (k : string) : result json :=
  match d with
  | JDict entries =>
      match lookup k entries with
      | Some v => ret v
      | None => raise (KeyError k)
      end
  | _ => raise TypeError
  end.

(** [iter(v)]: a [list] yields its items, a [dict] its keys, a [str] its
    characters; [None], [bool] and [int] are not iterable. *)
Definition py_iter (v : json) : result (list json) :=
  match v with
  | JList items => ret items
  | JDict entries => ret (map (fun kv => JStr (fst kv)) entries)
  | JStr s => ret (map (fun c => JStr (String c EmptyString)) (list_ascii_of_string s))
  | _ => raise TypeError
  end.

Definition hashable (v : json) : bool :=
  match v with
  | JList _ | JDict _ => false
  | _ => true
  end.

(** [hash(v)], kept for its exception only. *)
Definition py_hash (v : json) : result unit :=
  if hashable v then ret tt else raise TypeError.

(** [a == b] between hashable values, as a [dict] compares its keys:
    [True == 1] and [False == 0]. *)
Definition py_key_eqb (a b : json) : bool :=
  match a, b with
  | JNull, JNull => true
  | JBool x, JBool y => Bool.eqb x y
  | JBool x, JInt n | JInt n, JBool x => Z.eqb n (if x then 1 else 0)%Z
  | JInt n, JInt m => Z.eqb n m
  | JStr s, JStr t => String.eqb s t
  | _, _ => false
  end.

(** [v == "literal"]: only an equal [str] compares equal to a [str]. *)
Definition py_eq_str (v : json) (literal : string) : bool :=
  match v with
  | JStr s => String.eqb s literal
  | _ => false
  end.

(** [str(v)] as an f-string field formats it.  The [repr] of a [list] or a
    [dict] is not modelled ([None]). *)
Definition py_str (v : json) : option string :=
  match v with
  | JNull => Some "None"
  | JBool true => Some "True"
  | JBool false => Some "False"
  | JInt n => Some (NilZero.string_of_int (Z.to_int n))
  | JStr s => Some s
  | JList _ | JDict _ => None
  end.

(** ** The [swimlane_nodes] dictionary: swimlane id to the list of its nodes *)

Definition pydict : Type := list (json * list json).

Fixpoint dict_find (k : json) (d : pydict) : option (list json) :=
  match d with
  | [] => None
  | (k', v) :: rest => if py_key_eqb k k' then Some v else dict_find k rest
  end.

(** [d[k] = v]: an existing key keeps its place and takes the new value. *)
Fixpoint dict_set (k : json) (v : list json) (d : pydict) : pydict :=
  match d with
  | [] => [(k, v)]
  | (k', v') :: rest =>
      if py_key_eqb k k' then (k', v) :: rest else (k', v') :: dict_set k v rest
  end.

(** [d[k].append(x)] for a key that is present. *)
Fixpoint dict_append (k : json) (x : json) (d : pydict) : pydict :=
  match d with
  | [] => []
  | (k', v') :: rest =>
      if py_key_eqb k k' then (k', v' ++ [x]) :: rest
      else (k', v') :: dict_append k x rest
  end.

(** [k in d]. *)
Definition dict_contains (k : json) (d : pydict) : result bool :=
  _ <- py_hash k ;;
  ret (match dict_find k d with Some _ => true | None => false end).

(** [d.get(k, [])]. *)
Definition dict_get (k : json) (d : pydict) : result (list json) :=
  _ <- py_hash k ;;
  ret (match dict_find k d with Some v => v | None => [] end).

(** ** The part of the [graphviz] package the renderer calls

    [graphviz] is an external package.  A [Digraph] is kept as its comment and
    the statements of its body, in the order the calls add them; the DOT text
    of [Digraph.source] is computed by the package from these alone.  The
    package takes names and attribute values as [str]: it raises on any other
    value, and leaves out an attribute whose value is [None].  Attributes
    are kept in the order of the call; the package sorts them by key when it
    writes the line. *)
Module graphviz.

Definition attr_list : Type := list (string * string).

Inductive statement : Type :=
| AttrStmt (kw : option string) (attrs : attr_list)
| NodeStmt (name : string) (attrs : attr_list)
| EdgeStmt (tail_name head_name : string) (attrs : attr_list)
| SubgraphStmt (name : string) (body : list statement).

Record Digraph : Type := mkDigraph {
  name : option string;
  comment : option string;
  body : list statement
}.

(** A name or a value: the package matches it against a pattern, which
    raises [TypeError] on what is not a [str]. *)
Definition quote (identifier : json) : result string :=
  match identifier with
  | JStr s => ret s
  | _ => raise TypeError
  end.

(** An end of an edge: the package calls [partition] on it, which only a
    [str] has. *)
Definition quote_edge (identifier : json) : result string :=
  match identifier with
  | JStr s => ret s
  | _ => raise AttributeError
  end.

(** One [key=value] pair of an attribute list. *)
Definition a_pair (kv : string * json) (acc : attr_list) : result attr_list :=
  match snd kv with
  | JNull => ret acc
  | v => s <- quote v ;; ret (acc ++ [(fst kv, s)])
  end.

Definition a_list (label : json) (kwargs : list (string * json)) : result attr_list :=
  for_each a_pair (("label", label) :: kwargs) [].

(** [g.attr(kw, **attrs)]. *)
Definition attr (kw : option string) (attrs : list (string * json)) (g : Digraph)
  : result Digraph :=
  a <- a_list JNull attrs ;;
  ret (mkDigraph (name g) (comment g) (body g ++ [AttrStmt kw a])).

(** [g.node(name, label=label, **attrs)]. *)
Definition node (name_ : json) (label : json) (attrs : list (string * json))
  (g : Digraph) : result Digraph :=
  n <- quote name_ ;;
  a <- a_list label attrs ;;
  ret (mkDigraph (name g) (comment g) (body g ++ [NodeStmt n a])).

(** [g.edge(tail_name, head_name, label=label)]. *)
Definition edge (tail_name head_name : json) (label : json) (g : Digraph)
  : result Digraph :=
  t <- quote_edge tail_name ;;
  h <- quote_edge head_name ;;
  a <- a_list label [] ;;
  ret (mkDigraph (name g) (comment g) (body g ++ [EdgeStmt t h a])).

(** [with g.subgraph(name=name_) as c: block]: the block fills a new graph
    [c], which is added to [g] when the block ends without raising. *)
Definition subgraph (name_ : string) (block : Digraph -> result Digraph)
  (g : Digraph) : result Digraph :=
  c <- block (mkDigraph (Some name_) None []) ;;
  ret (mkDigraph (name g) (comment g) (body g ++ [SubgraphStmt name_ (body c)])).

End graphviz.

Import graphviz.

(** ** [generate_bpmn_diagram] *)

Definition colors : list string :=
  ["#E3F2FD"; "#F3E5F5"; "#E8F5E9"; "#FFF3E0"; "#FCE4EC"].

(** [l[i]] for an index that is not negative. *)
Definition list_index (l : list string) (i : nat) : result string :=
  match nth_error l i with
  | Some x => ret x
  | None => raise IndexError
  end.

(** The comprehension [{sl["id"]: [] for sl in swimlanes}], one entry at a time. *)
Definition declare_swimlane (sl : json) (swimlane_nodes : pydict) : result pydict :=
  k <- py_getitem sl "id" ;;
  _ <- py_hash k ;;
  ret (dict_set k [] swimlane_nodes).

(** The body of [for node in nodes]: a node whose swimlane is not a key is
    left out. *)
Definition group_node (node : json) (swimlane_nodes : pydict) : result pydict :=
  swimlane_id <- py_get node "swimlane" (JStr "default") ;;
  present <- dict_contains swimlane_id swimlane_nodes ;;
  if present then ret (dict_append swimlane_id node swimlane_nodes)
  else ret swimlane_nodes.

(** The body of [for node in swimlane_nodes.get(...)]: the [if]/[elif] chain
    on the node type. *)
Definition add_node (node : json) (c : Digraph) : result Digraph :=
  node_type <- py_get node "type" (JStr "task") ;;
  if py_eq_str node_type "start_event" then
    id <- py_getitem node "id" ;;
    label <- py_getitem node "label" ;;
    graphviz.node id label
      [("shape", JStr "circle"); ("style", JStr "filled");
       ("fillcolor", JStr "#4CAF50"); ("fontcolor", JStr "white");
       ("width", JStr "0.6"); ("height", JStr "0.6"); ("fixedsize", JStr "true")] c
  else if py_eq_str node_type "end_event" then
    id <- py_getitem node "id" ;;
    label <- py_getitem node "label" ;;
    graphviz.node id label
      [("shape", JStr "doublecircle"); ("style", JStr "filled");
       ("fillcolor", JStr "#F44336"); ("fontcolor", JStr "white");
       ("width", JStr "0.6"); ("height", JStr "0.6"); ("fixedsize", JStr "true")] c
  else if py_eq_str node_type "task" then
    id <- py_getitem node "id" ;;
    label <- py_getitem node "label" ;;
    graphviz.node id label
      [("shape", JStr "box"); ("style", JStr "rounded,filled");
       ("fillcolor", JStr "#2196F3"); ("fontcolor", JStr "white")] c
  else if py_eq_str node_type "gateway" then
    id <- py_getitem node "id" ;;
    label <- py_getitem node "label" ;;
    graphviz.node id label
      [("shape", JStr "diamond"); ("style", JStr "filled");
       ("fillcolor", JStr "#FFC107"); ("fontcolor", JStr "black")] c
  else if py_eq_str node_type "message" then
    id <- py_getitem node "id" ;;
    label <- py_getitem node "label" ;;
    graphviz.node id label
      [("shape", JStr "note"); ("style", JStr "filled");
       ("fillcolor", JStr "#FF9800"); ("fontcolor", JStr "white")] c
  else
    id <- py_getitem node "id" ;;
    label <- py_getitem node "label" ;;
    graphviz.node id label
      [("shape", JStr "box"); ("style", JStr "rounded,filled");
       ("fillcolor", JStr "#9E9E9E"); ("fontcolor", JStr "white")] c.

(** The f-string [f'cluster_{id}'].  An id that is a [list] or a [dict] does
    not reach it: the comprehension has raised on it before. *)
Definition cluster_name (id : json) : result string :=
  match py_str id with
  | Some s => ret ("cluster_" ++ s)%string
  | None => raise TypeError
  end.

(** The block under [with dot.subgraph(...) as c]. *)
Definition cluster_block (swimlane_nodes : pydict) (idx : nat) (swimlane : json)
  (c : Digraph) : result Digraph :=
  label <- py_getitem swimlane "label" ;;
  fillcolor <- list_index colors (idx mod List.length colors) ;;
  c <- attr None
         [("label", label); ("style", JStr "filled"); ("color", JStr "#666666");
          ("fillcolor", JStr fillcolor); ("fontsize", JStr "14");
          ("fontname", JStr "Arial Bold")] c ;;
  id <- py_getitem swimlane "id" ;;
  nodes <- dict_get id swimlane_nodes ;;
  for_each add_node nodes c.

(** The body of [for idx, swimlane in enumerate(swimlanes)]. *)
Definition add_cluster (swimlane_nodes : pydict) (entry : nat * json) (dot : Digraph)
  : result Digraph :=
  id <- py_getitem (snd entry) "id" ;;
  name_ <- cluster_name id ;;
  subgraph name_ (cluster_block swimlane_nodes (fst entry) (snd entry)) dot.

(** The body of [for edge in diagram_data.get("edges", [])]. *)
Definition add_edge (edge_ : json) (dot : Digraph) : result Digraph :=
  tail_name <- py_getitem edge_ "from" ;;
  head_name <- py_getitem edge_ "to" ;;
  label <- py_get edge_ "label" (JStr "") ;;
  graphviz.edge tail_name head_name label dot.

Definition generate_bpmn_diagram (diagram_data : json) : result Digraph :=
  let dot := mkDigraph None (Some "BPMN Process Flow") [] in
  dot <- attr (Some "graph")
           [("rankdir", JStr "LR"); ("splines", JStr "ortho"); ("nodesep", JStr "0.8");
            ("ranksep", JStr "1.5"); ("bgcolor", JStr "transparent")] dot ;;
  dot <- attr (Some "node") [("fontname", JStr "Arial"); ("fontsize", JStr "11")] dot ;;
  dot <- attr (Some "edge")
           [("fontname", JStr "Arial"); ("fontsize", JStr "9"); ("color", JStr "#555555")]
           dot ;;
  swimlanes <- py_get diagram_data "swimlanes" (JList []) ;;
  nodes <- py_get diagram_data "nodes" (JList []) ;;
  swimlane_items <- py_iter swimlanes ;;
  swimlane_nodes <- for_each declare_swimlane swimlane_items [] ;;
  node_items <- py_iter nodes ;;
  swimlane_nodes <- for_each group_node node_items swimlane_nodes ;;
  dot <- for_each (add_cluster swimlane_nodes) (enumerate swimlane_items) dot ;;
  edges <- py_get diagram_data "edges" (JList []) ;;
  edge_items <- py_iter edges ;;
  dot <- for_each add_edge edge_items dot ;;
  ret dot.

(** ** The session and the generate handler of [main] *)

(** [st.session_state]: Python's [None] is [JNull]; [graph_obj] is [None]
    until a diagram has been rendered. *)
Record session_state : Type := mkSession {
  diagram_generated : bool;
  diagram_data : json;
  bpmn_xml : json;
  graph_obj : option Digraph
}.

(** The session as [main] initialises it. *)
Definition initial_session : session_state := mkSession false JNull JNull None.

(** A Python [str] whose characters are counted: the sequence of its code
    points. *)
Definition text : Type := list N.

(** The text of a string of ASCII characters. *)
Definition text_of_string (s : string) : text :=
  map N_of_ascii (list_ascii_of_string s).

(** What the request to the completion endpoint and [json.loads] come to:
    an exception other than [JSONDecodeError] anywhere in the [try] block,
    a content that is not JSON, or a content with the value it parses to. *)
Inductive completion : Type :=
| ApiRaises
| InvalidJson (response_content : string)
| ValidJson (value : json).

Inductive message : Type :=
| ClientNotInitialized
| InvalidJsonReturned
| ApiCommunicationError
| DescriptionTooShort
| GeneratedSuccessfully
| FailedToGenerate.

(** The calls on the page: [st.error], [st.code], [st.warning], [st.success],
    [st.rerun]. *)
Inductive ui_call : Type :=
| st_error (m : message)
| st_code (text : string)
| st_warning (m : message)
| st_success (m : message)
| st_rerun.

(** [get_structured_process_flow]: the page calls it makes and the value it
    returns; [return None] is [JNull].  [client] tells whether the module's
    client was initialised, [reply] what the endpoint answers to the
    description. *)
Definition get_structured_process_flow (client : bool) (reply : completion)
  (description : text) : list ui_call * json :=
  if negb client then ([st_error ClientNotInitialized], JNull)
  else
    match reply with
    | ValidJson value => ([], value)
    | InvalidJson response_content =>
        ([st_error InvalidJsonReturned; st_code response_content], JNull)
    | ApiRaises => ([st_error ApiCommunicationError], JNull)
    end.

(** [bool(v)]. *)
Definition truthy (v : json) : bool :=
  match v with
  | JNull => false
  | JBool b => b
  | JInt n => negb (Z.eqb n 0)
  | JStr s => negb (String.eqb s "")
  | JList items => match items with [] => false | _ => true end
  | JDict entries => match entries with [] => false | _ => true end
  end.

Fixpoint is_substring (k s : string) : bool :=
  String.prefix k s ||
  match s with
  | EmptyString => false
  | String _ s' => is_substring k s'
  end.

(** ["k" in v]: a key of a [dict], an item of a [list], a substring of a
    [str]; [TypeError] on the values that are no containers. *)
Definition py_contains (k : string) (v : json) : result bool :=
  match v with
  | JDict entries => ret (match lookup k entries with Some _ => true | None => false end)
  | JList items => ret (existsb (fun x => py_eq_str x k) items)
  | JStr s => ret (is_substring k s)
  | _ => raise TypeError
  end.

(** The value is a JSON object with the two top-level keys. *)
Definition has_both_keys (v : json) : bool :=
  match v with
  | JDict entries =>
      match lookup "diagram_json" entries, lookup "bpmn_xml" entries with
      | Some _, Some _ => true
      | _, _ => false
      end
  | _ => false
  end.

(** The condition [structured_output and "diagram_json" in structured_output
    and "bpmn_xml" in structured_output], evaluated left to right. *)
Definition accepted (structured_output : json) : result bool :=
  if truthy structured_output then
    has_json <- py_contains "diagram_json" structured_output ;;
    if has_json then py_contains "bpmn_xml" structured_output else ret false
  else ret false.

(** [c.isspace()], the characters [str.strip] removes: the ASCII controls
    9 to 13 and 28 to 31, the space, U+0085, U+00A0, U+1680, U+2000 to
    U+200A, U+2028, U+2029, U+202F, U+205F and U+3000. *)
Definition is_space (c : N) : bool :=
  ((9 <=? c) && (c <=? 13) || (28 <=? c) && (c <=? 32)
   || (c =? 133) || (c =? 160) || (c =? 5760)
   || (8192 <=? c) && (c <=? 8202)
   || (c =? 8232) || (c =? 8233) || (c =? 8239) || (c =? 8287) || (c =? 12288))%N.

Fixpoint lstrip (s : text) : text :=
  match s with
  | [] => []
  | c :: s' => if is_space c then lstrip s' else s
  end.

Fixpoint rstrip (s : text) : text :=
  match s with
  | [] => []
  | c :: s' =>
      match rstrip s' with
      | [] => if is_space c then [] else [c]
      | r => c :: r
      end
  end.

(** [s.strip()]. *)
Definition py_strip (s : text) : text := rstrip (lstrip s).

(** One run of [main]: the session it leaves,
    the page calls it made, and the exception that ended it, if any.  The
    session is updated in place, so an exception keeps the assignments made
    before it. *)
Record run : Type := mkRun {
  session : session_state;
  shown : list ui_call;
  raised : option exn
}.

Definition set_diagram_data (v : json) (st : session_state) : session_state :=
  mkSession (diagram_generated st) v (bpmn_xml st) (graph_obj st).

Definition set_bpmn_xml (v : json) (st : session_state) : session_state :=
  mkSession (diagram_generated st) (diagram_data st) v (graph_obj st).

Definition set_graph_obj (g : Digraph) (st : session_state) : session_state :=
  mkSession (diagram_generated st) (diagram_data st) (bpmn_xml st) (Some g).

Definition set_diagram_generated (b : bool) (st : session_state) : session_state :=
  mkSession b (diagram_data st) (bpmn_xml st) (graph_obj st).

(** [main], for a session that has been initialised: the block under
    [if generate_button].  The page elements that only read the session are
    left out. *)
Definition main (st : session_state) (generate_button : bool) (user_input : text)
  (client : bool) (reply : completion) : run :=
  if negb generate_button then mkRun st [] None
  else if (List.length (py_strip user_input) <? 20)%nat then
    mkRun st [st_warning DescriptionTooShort] None
  else
    let (calls, structured_output) :=
      get_structured_process_flow client reply user_input in
    match accepted structured_output with
    | inl e => mkRun st calls (Some e)
    | inr true =>
        match py_getitem structured_output "diagram_json" with
        | inl e => mkRun st calls (Some e)
        | inr diagram_json =>
            let st := set_diagram_data diagram_json st in
            match py_getitem structured_output "bpmn_xml" with
            | inl e => mkRun st calls (Some e)
            | inr xml =>
                let st := set_bpmn_xml xml st in
                match generate_bpmn_diagram (diagram_data st) with
                | inl e => mkRun st calls (Some e)
                | inr dot =>
                    let st := set_graph_obj dot st in
                    let st := set_diagram_generated true st in
                    mkRun st (calls ++ [st_success GeneratedSuccessfully; st_rerun]) None
                end
            end
        end
    | inr false =>
        mkRun (set_diagram_generated false st) (calls ++ [st_error FailedToGenerate]) None
    end.

(** ** The statements a call adds *)

Definition push (s : statement) (g : Digraph) : Digraph :=
  mkDigraph (name g) (comment g) (body g ++ [s]).

Definition push_all (ss : list statement) (g : Digraph) : Digraph :=
  mkDigraph (name g) (comment g) (body g ++ ss).

Fixpoint map_result {A B : Type} (f : A -> result B) (l : list A) : result (list B) :=
  match l with
  | [] => ret []
  | x :: l' => y <- f x ;; ys <- map_result f l' ;; ret (y :: ys)
  end.

(** The keyword arguments the [if]/[elif] chain of [add_node] passes. *)
Definition node_style (node_type : json) : list (string * json) :=
  if py_eq_str node_type "start_event" then
    [("shape", JStr "circle"); ("style", JStr "filled");
     ("fillcolor", JStr "#4CAF50"); ("fontcolor", JStr "white");
     ("width", JStr "0.6"); ("height", JStr "0.6"); ("fixedsize", JStr "true")]
  else if py_eq_str node_type "end_event" then
    [("shape", JStr "doublecircle"); ("style", JStr "filled");
     ("fillcolor", JStr "#F44336"); ("fontcolor", JStr "white");
     ("width", JStr "0.6"); ("height", JStr "0.6"); ("fixedsize", JStr "true")]
  else if py_eq_str node_type "task" then
    [("shape", JStr "box"); ("style", JStr "rounded,filled");
     ("fillcolor", JStr "#2196F3"); ("fontcolor", JStr "white")]
  else if py_eq_str node_type "gateway" then
    [("shape", JStr "diamond"); ("style", JStr "filled");
     ("fillcolor", JStr "#FFC107"); ("fontcolor", JStr "black")]
  else if py_eq_str node_type "message" then
    [("shape", JStr "note"); ("style", JStr "filled");
     ("fillcolor", JStr "#FF9800"); ("fontcolor", JStr "white")]
  else
    [("shape", JStr "box"); ("style", JStr "rounded,filled");
     ("fillcolor", JStr "#9E9E9E"); ("fontcolor", JStr "white")].

(** The statement [add_node] adds for a node. *)
Definition node_stmt (node : json) : result statement :=
  node_type <- py_get node "type" (JStr "task") ;;
  id <- py_getitem node "id" ;;
  label <- py_getitem node "label" ;;
  n <- quote id ;;
  a <- a_list label (node_style node_type) ;;
  ret (NodeStmt n a).

(** The statement [add_cluster] adds for a swimlane. *)
Definition cluster_stmt (swimlane_nodes : pydict) (entry : nat * json) : result statement :=
  id <- py_getitem (snd entry) "id" ;;
  name_ <- cluster_name id ;;
  label <- py_getitem (snd entry) "label" ;;
  fillcolor <- list_index colors (fst entry mod List.length colors) ;;
  a <- a_list JNull
         [("label", label); ("style", JStr "filled"); ("color", JStr "#666666");
          ("fillcolor", JStr fillcolor); ("fontsize", JStr "14");
          ("fontname", JStr "Arial Bold")] ;;
  id' <- py_getitem (snd entry) "id" ;;
  nodes <- dict_get id' swimlane_nodes ;;
  ss <- map_result node_stmt nodes ;;
  ret (SubgraphStmt name_ (AttrStmt None a :: ss)).

(** The statement [add_edge] adds for an edge. *)
Definition edge_stmt (edge_ : json) : result statement :=
  tail_name <- py_getitem edge_ "from" ;;
  head_name <- py_getitem edge_ "to" ;;
  label <- py_get edge_ "label" (JStr "") ;;
  t <- quote_edge tail_name ;;
  h <- quote_edge head_name ;;
  a <- a_list label [] ;;
  ret (EdgeStmt t h a).

(** The three statements every diagram starts with. *)
Definition preamble : list statement :=
  [AttrStmt (Some "graph")
     [("rankdir", "LR"); ("splines", "ortho"); ("nodesep", "0.8");
      ("ranksep", "1.5"); ("bgcolor", "transparent")];
   AttrStmt (Some "node") [("fontname", "Arial"); ("fontsize", "11")];
   AttrStmt (Some "edge") [("fontname", "Arial"); ("fontsize", "9"); ("color", "#555555")]].

(** ** Swimlanes and their nodes *)

(** The representative of a key: [True] and [False] are the keys [1] and [0]. *)
Definition canon (v : json) : json :=
  match v with
  | JBool b => JInt (if b then 1 else 0)
  | _ => v
  end.

(** [node.get("swimlane", "default") == k], as the key of a dictionary. *)
Definition in_lane (k : json) (node : json) : bool :=
  match py_get node "swimlane" (JStr "default") with
  | inr v => py_key_eqb v k
  | inl _ => false
  end.

(** The nodes of the swimlane [k], in the order of the node list. *)
Definition lane_nodes (k : json) (nodes : list json) : list json :=
  filter (in_lane k) nodes.

(** Some swimlane of the list has the id [k]. *)
Definition declares (swimlanes : list json) (k : json) : bool :=
  existsb (fun sl => match py_getitem sl "id" with
                     | inr k' => py_key_eqb k k'
                     | inl _ => false
                     end) swimlanes.

(** The swimlane has an id that can be a key. *)
Definition has_key_id (sl : json) : bool :=
  match py_getitem sl "id" with
  | inr k => hashable k
  | inl _ => false
  end.

(** The node is a [dict] and its swimlane can be a key. *)
Definition has_lane (node : json) : bool :=
  match py_get node "swimlane" (JStr "default") with
  | inr v => hashable v
  | inl _ => false
  end.

(** ** Reading a graph and a diagram *)

(** The items the renderer iterates over: [diagram_data.get(key, [])]. *)
Definition graph_swimlanes (g : json) : result (list json) :=
  v <- py_get g "swimlanes" (JList []) ;; py_iter v.

Definition graph_nodes (g : json) : result (list json) :=
  v <- py_get g "nodes" (JList []) ;; py_iter v.

Definition graph_edges (g : json) : result (list json) :=
  v <- py_get g "edges" (JList []) ;; py_iter v.

Definition is_subgraph (s : statement) : bool :=
  match s with
  | SubgraphStmt _ _ => true
  | _ => false
  end.

Definition is_edge (s : statement) : bool :=
  match s with
  | EdgeStmt _ _ _ => true
  | _ => false
  end.

(** The clusters of a diagram, in the order they were added. *)
Definition clusters (d : Digraph) : list statement := filter is_subgraph (body d).

(** The connectors of a diagram, in the order they were added. *)
Definition connectors (d : Digraph) : list statement := filter is_edge (body d).

Fixpoint attr_value (k : string) (attrs : attr_list) : option string :=
  match attrs with
  | [] => None
  | (k', v) :: rest => if String.eqb k k' then Some v else attr_value k rest
  end.


Definition cluster_id (s : statement) : option string :=
  match s with
  | SubgraphStmt n _ => Some n
  | _ => None
  end.

Definition cluster_body (s : statement) : list statement :=
  match s with
  | SubgraphStmt _ b => b
  | _ => []
  end.

(** The shapes of the nodes of a diagram, cluster after cluster. *)
Definition shapes (d : Digraph) : list string :=
  flat_map (fun c => flat_map (fun s => match s with
                                        | NodeStmt _ a =>
                                            match attr_value "shape" a with
                                            | Some x => [x]
                                            | None => []
                                            end
                                        | _ => []
                                        end) (cluster_body c)) (clusters d).

(** ** Graphs that render *)

(** A [str] or [None]: what the package takes as a label. *)
Definition label_ok (v : json) : bool :=
  match v with
  | JStr _ | JNull => true
  | _ => false
  end.

Definition is_str (v : json) : bool :=
  match v with
  | JStr _ => true
  | _ => false
  end.

(** The swimlane has an [id] that can be a key and a [label]. *)
Definition swimlane_ok (sl : json) : bool :=
  match py_getitem sl "id", py_getitem sl "label" with
  | inr k, inr l => hashable k && label_ok l
  | _, _ => false
  end.

(** The node has a [str] as [id] and a [label]. *)
Definition node_drawn_ok (node : json) : bool :=
  match py_getitem node "id", py_getitem node "label" with
  | inr id, inr l => is_str id && label_ok l
  | _, _ => false
  end.

(** The node is a [dict] whose swimlane can be a key, and it has [id] and
    [label] when that swimlane is declared. *)
Definition node_ok (swimlanes : list json) (node : json) : bool :=
  match py_get node "swimlane" (JStr "default") with
  | inr v => hashable v && (if declares swimlanes v then node_drawn_ok node else true)
  | inl _ => false
  end.

(** The edge has a [str] as [from] and as [to]; its label, if any, is a
    [str] or [None]. *)
Definition edge_ok (e : json) : bool :=
  match py_getitem e "from", py_getitem e "to", py_get e "label" (JStr "") with
  | inr t, inr h, inr l => is_str t && is_str h && label_ok l
  | _, _, _ => false
  end.

Definition renderable (g : json) : bool :=
  match graph_swimlanes g, graph_nodes g, graph_edges g with
  | inr sls, inr ns, inr es =>
      forallb swimlane_ok sls && forallb (node_ok sls) ns && forallb edge_ok es
  | _, _, _ => false
  end.

(** ** Graphs that follow the schema *)

Definition str_field (k : string) (v : json) : option string :=
  match py_getitem v k with
  | inr (JStr s) => Some s
  | _ => None
  end.

Definition has_str (k : string) (v : json) : bool :=
  match str_field k v with
  | Some _ => true
  | None => false
  end.

Fixpoint distinct (l : list string) : bool :=
  match l with
  | [] => true
  | x :: l' => negb (existsb (String.eqb x) l') && distinct l'
  end.

(** The ids of the entries that have a [str] as id. *)
Definition ids (l : list json) : list string :=
  flat_map (fun v => match str_field "id" v with
                     | Some s => [s]
                     | None => []
                     end) l.

Definition valid_swimlane (sl : json) : bool :=
  has_str "id" sl && has_str "label" sl.

Definition valid_node (n : json) : bool :=
  has_str "id" n && has_str "label" n && has_str "type" n && has_str "swimlane" n.

(** [from] and [to] are strings; the label is a string or is absent. *)
Definition valid_edge (e : json) : bool :=
  has_str "from" e && has_str "to" e &&
  match py_get e "label" (JStr "") with
  | inr (JStr _) => true
  | _ => false
  end.

(** The three lists are present, their entries have the fields of the
    schema, and ids are unique among swimlanes and among nodes. *)
Definition valid_graph (g : json) : bool :=
  match g with
  | JDict entries =>
      match lookup "swimlanes" entries, lookup "nodes" entries, lookup "edges" entries with
      | Some (JList sls), Some (JList ns), Some (JList es) =>
          forallb valid_swimlane sls && forallb valid_node ns && forallb valid_edge es
          && distinct (ids sls) && distinct (ids ns)
      | _, _, _ => false
      end
  | _ => false
  end.

(** The name of the cluster of a swimlane: the f-string of [add_cluster]. *)
Definition swimlane_cluster (sl : json) : option string :=
  match py_getitem sl "id" with
  | inr k => option_map (String.append "cluster_") (py_str k)
  | inl _ => None
  end.

Definition field (k : string) (e : json) : string :=
  match str_field k e with
  | Some s => s
  | None => ""
  end.

(** The label of an edge, the empty string when it has none. *)
Definition edge_label (e : json) : string :=
  match py_get e "label" (JStr "") with
  | inr (JStr l) => l
  | _ => ""
  end.

(** The connector of an edge: from [from] to [to], with the label. *)
Definition connector (e : json) : statement :=
  EdgeStmt (field "from" e) (field "to" e) [("label", edge_label e)].

(** ** Outcomes of a generate request *)


(** ** More readings of a graph and a diagram *)

(** The names of the node statements of a cluster body, in order. *)
Definition node_names (stmts : list statement) : list string :=
  flat_map (fun s => match s with
                     | NodeStmt n _ => [n]
                     | _ => []
                     end) stmts.

(** The node is a [dict] whose swimlane is the id of some swimlane. *)
Definition drawn (swimlanes : list json) (node : json) : bool :=
  match py_get node "swimlane" (JStr "default") with
  | inr v => declares swimlanes v
  | inl _ => false
  end.

(** The ids of the swimlanes that have one. *)
Definition swimlane_keys (swimlanes : list json) : list json :=
  flat_map (fun sl => match py_getitem sl "id" with
                      | inr k => [k]
                      | inl _ => []
                      end) swimlanes.

(** No two keys of the list are equal as dictionary keys. *)
Fixpoint keys_distinct (ks : list json) : bool :=
  match ks with
  | [] => true
  | k :: rest => negb (existsb (py_key_eqb k) rest) && keys_distinct rest
  end.

(** The exceptions the renderer can raise: no [IndexError], and a
    [KeyError] only for one of the four fields it reads by subscript. *)
Definition expected_exn (e : exn) : bool :=
  match e with
  | IndexError => false
  | KeyError k => existsb (String.eqb k) ["id"; "label"; "from"; "to"]
  | TypeError | AttributeError => true
  end.

(** ** The page around the generate handler *)

(** What the sidebar of [main] comes to: the note that asks for a first
    diagram, the download button with its data, or the exception of
    [st.download_button], which takes a [str] (or bytes) as data and raises
    on every other value [json.loads] can give. *)
Inductive sidebar_outcome : Type :=
| info_only
| download_offered (data : string)
| download_raises.

(** The sidebar of [main]: the download button is built when a diagram has
    been generated. *)
Definition sidebar (st : session_state) : sidebar_outcome :=
  if diagram_generated st then
    match bpmn_xml st with
    | JStr data => download_offered data
    | _ => download_raises
    end
  else info_only.

(** The block of [main] under the last [if st.session_state.diagram_generated]:
    the chart of [graph_obj.source], the JSON and the XML it shows.  The
    attribute [source] of [None] raises [AttributeError]. *)
Definition display (st : session_state) : result (option (Digraph * json * json)) :=
  if diagram_generated st then
    match graph_obj st with
    | Some dot => ret (Some (dot, diagram_data st, bpmn_xml st))
    | None => raise AttributeError
    end
  else ret None.

(** The sessions a browser tab can be in: the initial one, and the one any
    run of [main] leaves, whether the run raised or not. *)
Inductive reachable : session_state -> Prop :=
| reach_initial : reachable initial_session
| reach_run (st : session_state) (generate_button : bool) (user_input : text)
    (client : bool) (reply : completion) :
    reachable st ->
    reachable (session (main st generate_button user_input client reply)).

(** The sessions reached through runs that ended without an exception. *)
Inductive reachable_quietly : session_state -> Prop :=
| quiet_initial : reachable_quietly initial_session
| quiet_run (st : session_state) (generate_button : bool) (user_input : text)
    (client : bool) (reply : completion) :
    reachable_quietly st ->
    raised (main st generate_button user_input client reply) = None ->
    reachable_quietly (session (main st generate_button user_input client reply)).

(** A generated session shows the rendering of the graph it stores. *)
Definition consistent (st : session_state) : Prop :=
  diagram_generated st = true ->
  exists dot, graph_obj st = Some dot /\
              generate_bpmn_diagram (diagram_data st) = inr dot.

(** ** Sample data *)

Definition scenario : json :=
  JDict
    [("swimlanes",
      JList [JDict [("id", JStr "customer"); ("label", JStr "Customer")];
             JDict [("id", JStr "agent"); ("label", JStr "Agent")]]);
     ("nodes",
      JList [JDict [("id", JStr "start"); ("label", JStr "Submit");
                    ("type", JStr "start_event"); ("swimlane", JStr "customer")];
             JDict [("id", JStr "review"); ("label", JStr "Review");
                    ("type", JStr "gateway"); ("swimlane", JStr "agent")];
             JDict [("id", JStr "approved"); ("label", JStr "Done");
                    ("type", JStr "end_event"); ("swimlane", JStr "agent")];
             JDict [("id", JStr "rejected"); ("label", JStr "Closed");
                    ("type", JStr "end_event"); ("swimlane", JStr "agent")]]);
     ("edges",
      JList [JDict [("from", JStr "start"); ("to", JStr "review")];
             JDict [("from", JStr "review"); ("to", JStr "approved");
                    ("label", JStr "Approved")];
             JDict [("from", JStr "review"); ("to", JStr "rejected");
                    ("label", JStr "Rejected")]])].

Definition a_description : text :=
  text_of_string
    "A customer submits a request. The agent reviews it and approves or rejects it.".

(** Fifteen characters that take thirty bytes in UTF-8: fifteen times U+00E9. *)
Definition a_short_description : text := repeat 233%N 15.

Definition a_response : json :=
  JDict [("diagram_json", scenario); ("bpmn_xml", JStr "<definitions/>")].

(** The session after one successful generation. *)
Definition a_generated_session : session_state :=
  session (main initial_session true a_description true (ValidJson a_response)).

Definition a_task_node : list (string * json) :=
  [("id", JStr "review"); ("label", JStr "Review"); ("type", JStr "task");
   ("swimlane", JStr "agent")].

Definition an_untyped_node : list (string * json) :=
  [("id", JStr "review"); ("label", JStr "Review"); ("swimlane", JStr "agent")].

Definition an_empty_cluster : Digraph := mkDigraph (Some "cluster_agent") None [].

Definition lane (id label : string) : json :=
  JDict [("id", JStr id); ("label", JStr label)].

Definition six_lanes : json :=
  JDict [("swimlanes",
          JList [lane "customer" "Customer"; lane "agent" "Agent";
                 lane "driver" "Driver"; lane "billing" "Billing";
                 lane "support" "Support"; lane "audit" "Audit"])].

(** The diagram of a graph that renders. *)
Definition rendered (g : json) : Digraph :=
  match generate_bpmn_diagram g with
  | inr d => d
  | inl _ => mkDigraph None None []
  end.

(** A swimlane without an [id]. *)
Definition a_graph_without_id : json :=
  JDict [("swimlanes", JList [JDict [("label", JStr "Customer")]])].

(** A graph with defects that only degrade the diagram: no [edges] list, a
    node of an undeclared swimlane that has neither id nor label, a node
    with no swimlane, a node with no type and one with an unknown type. *)
Definition a_degraded_graph : json :=
  JDict
    [("nodes",
      JList [JDict [("swimlane", JStr "nobody")];
             JDict [("id", JStr "lost"); ("label", JStr "Lost")];
             JDict [("id", JStr "review"); ("label", JStr "Review");
                    ("swimlane", JStr "agent")];
             JDict [("id", JStr "odd"); ("label", JStr "Odd"); ("type", JInt 7);
                    ("swimlane", JStr "agent")]]);
     ("swimlanes", JList [lane "agent" "Agent"])].

(** The sample graph with a node of a swimlane that is not declared. *)
Definition a_stray_node : json :=
  JDict [("id", JStr "ghost"); ("label", JStr "Ghost"); ("type", JStr "task");
         ("swimlane", JStr "nobody")].

Definition scenario_nodes : list json :=
  [JDict [("id", JStr "start"); ("label", JStr "Submit");
          ("type", JStr "start_event"); ("swimlane", JStr "customer")];
   JDict [("id", JStr "review"); ("label", JStr "Review");
          ("type", JStr "gateway"); ("swimlane", JStr "agent")]].

Definition scenario_with_stray : list (string * json) :=
  [("nodes",
    JList ([JDict [("id", JStr "start"); ("label", JStr "Submit");
                   ("type", JStr "start_event"); ("swimlane", JStr "customer")]]
           ++ a_stray_node
           :: [JDict [("id", JStr "review"); ("label", JStr "Review");
                      ("type", JStr "gateway"); ("swimlane", JStr "agent")]]));
   ("swimlanes", JList [lane "customer" "Customer"; lane "agent" "Agent"]);
   ("edges", JList [JDict [("from", JStr "start"); ("to", JStr "ghost")]])].

(** A graph whose edges name nodes that do not exist. *)
Definition dangling_edges : list json :=
  [JDict [("from", JStr "start"); ("to", JStr "nowhere"); ("label", JStr "Yes")];
   JDict [("from", JStr "gone"); ("to", JStr "start")]].

Definition a_dangling_graph : list (string * json) :=
  [("swimlanes", JList [lane "customer" "Customer"]);
   ("nodes", JList [JDict [("id", JStr "start"); ("label", JStr "Submit");
                           ("type", JStr "start_event"); ("swimlane", JStr "customer")]]);
   ("edges", JList dangling_edges)].

(** A response whose graph does not render: its swimlane has no id. *)
Definition a_broken_response : list (string * json) :=
  [("diagram_json", a_graph_without_id); ("bpmn_xml", JStr "<broken/>")].

(** The cluster at a position of a diagram. *)
Definition cluster_at (d : Digraph) (i : nat) : statement :=
  nth i (clusters d) (AttrStmt None []).

(** The list a reading of a graph returns. *)
Definition items (r : result (list json)) : list json :=
  match r with
  | inr l => l
  | inl _ => []
  end.

(** Two swimlane entries with the same id, and two nodes of that swimlane. *)
Definition twin_lanes : json :=
  JDict [("swimlanes", JList [lane "agent" "Agent"; lane "agent" "Agent again"]);
         ("nodes", JList [JDict [("id", JStr "review"); ("label", JStr "Review");
                                 ("swimlane", JStr "agent")];
                          JDict [("id", JStr "decide"); ("label", JStr "Decide");
                                 ("type", JStr "gateway"); ("swimlane", JStr "agent")]])].

(** A swimlane with the id [default] and a node that names no swimlane. *)
Definition a_default_lane_graph : json :=
  JDict [("swimlanes", JList [lane "agent" "Agent"; lane "default" "Others"]);
         ("nodes", JList [JDict [("id", JStr "review"); ("label", JStr "Review");
                                 ("swimlane", JStr "agent")];
                          JDict [("id", JStr "stray"); ("label", JStr "Stray")]])].

(** * Properties *)

(** ** The error monad and the loops *)

Lemma bind_inr {A B : Type} (m : result A) (k : A -> result B) (b : B) :
  bind m k = inr b -> exists a, m = inr a /\ k a = inr b.
Proof.
  destruct m as [e | a]; simpl; intros H; [discriminate | eauto].
Qed.

Lemma bind_assoc {A B C : Type} (m : result A) (f : A -> result B) (g : B -> result C) :
  bind (bind m f) g = bind m (fun a => bind (f a) g).
Proof. destruct m; reflexivity. Qed.

Lemma bind_ext {A B : Type} (m : result A) (f g : A -> result B) :
  (forall a, f a = g a) -> bind m f = bind m g.
Proof. intros H; destruct m; simpl; auto. Qed.

Ltac inv_bind H :=
  let a := fresh "a" in
  let E := fresh "E" in
  apply bind_inr in H; destruct H as [a [E H]].

Lemma push_all_cons (s : statement) (ss : list statement) (g : Digraph) :
  push_all (s :: ss) g = push_all ss (push s g).
Proof.
  unfold push_all, push; simpl. now rewrite <- app_assoc.
Qed.

Lemma push_all_nil (g : Digraph) : push_all [] g = g.
Proof.
  destruct g; unfold push_all; simpl. now rewrite app_nil_r.
Qed.

(** A loop whose body adds one statement adds the statements of its items,
    and raises where the first of them raises. *)
Lemma for_each_push {A : Type} (step : A -> Digraph -> result Digraph)
  (stmt : A -> result statement) :
  (forall x g, step x g = s <- stmt x ;; ret (push s g)) ->
  forall l g, for_each step l g = ss <- map_result stmt l ;; ret (push_all ss g).
Proof.
  intros Hstep l; induction l as [| x l IH]; intros g; simpl.
  - now rewrite push_all_nil.
  - rewrite Hstep. destruct (stmt x) as [e | s]; simpl; [reflexivity |].
    rewrite IH. destruct (map_result stmt l) as [e | ss]; simpl; [reflexivity |].
    now rewrite push_all_cons.
Qed.

Lemma add_node_push (node : json) (c : Digraph) :
  add_node node c = s <- node_stmt node ;; ret (push s c).
Proof.
  unfold add_node, node_stmt, node_style, graphviz.node.
  destruct (py_get node "type" (JStr "task")) as [e | t]; simpl; [reflexivity |].
  repeat match goal with
         | |- context [if ?b then _ else _] => destruct b
         end;
    destruct (py_getitem node "id") as [e | id]; simpl; try reflexivity;
    destruct (py_getitem node "label") as [e | label]; simpl; try reflexivity;
    destruct (quote id) as [e | n]; simpl; try reflexivity;
    match goal with
    | |- context [a_list ?l ?k] => destruct (a_list l k) as [e | a]
    end; reflexivity.
Qed.

Lemma add_edge_push (edge_ : json) (dot : Digraph) :
  add_edge edge_ dot = s <- edge_stmt edge_ ;; ret (push s dot).
Proof.
  unfold add_edge, edge_stmt, graphviz.edge.
  destruct (py_getitem edge_ "from") as [e | t]; simpl; [reflexivity |].
  destruct (py_getitem edge_ "to") as [e | h]; simpl; [reflexivity |].
  destruct (py_get edge_ "label" (JStr "")) as [e | l]; simpl; [reflexivity |].
  destruct (quote_edge t) as [e | t']; simpl; [reflexivity |].
  destruct (quote_edge h) as [e | h']; simpl; [reflexivity |].
  destruct (a_list l []) as [e | a]; reflexivity.
Qed.

Lemma add_cluster_push (swimlane_nodes : pydict) (entry : nat * json) (dot : Digraph) :
  add_cluster swimlane_nodes entry dot
  = s <- cluster_stmt swimlane_nodes entry ;; ret (push s dot).
Proof.
  unfold add_cluster, cluster_stmt, subgraph, cluster_block, attr.
  destruct (py_getitem (snd entry) "id") as [e | id]; cbn [bind]; [reflexivity |].
  destruct (cluster_name id) as [e | nm]; cbn [bind]; [reflexivity |].
  destruct (py_getitem (snd entry) "label") as [e | label]; cbn [bind]; [reflexivity |].
  destruct (list_index colors (fst entry mod List.length colors)) as [e | fill];
    cbn [bind]; [reflexivity |].
  match goal with
  | |- context [a_list ?l ?k] => destruct (a_list l k) as [e | a]
  end; cbn [bind ret]; [reflexivity |].
  destruct (dict_get id swimlane_nodes) as [e | nodes]; cbn [bind]; [reflexivity |].
  rewrite (for_each_push add_node node_stmt add_node_push).
  destruct (map_result node_stmt nodes) as [e | ss]; reflexivity.
Qed.

Lemma for_each_app {A S : Type} (body : A -> S -> result S) (l1 l2 : list A) (s : S) :
  for_each body (l1 ++ l2) s = s1 <- for_each body l1 s ;; for_each body l2 s1.
Proof.
  revert s; induction l1 as [| x l1 IH]; intros s; simpl; [reflexivity |].
  destruct (body x s) as [e | s']; simpl; auto.
Qed.

(** [generate_bpmn_diagram] as the statements it collects: the preamble, one
    statement for each swimlane, one for each edge. *)
Lemma generate_eq (diagram_data : json) :
  generate_bpmn_diagram diagram_data
  = swimlanes <- py_get diagram_data "swimlanes" (JList []) ;;
    nodes <- py_get diagram_data "nodes" (JList []) ;;
    swimlane_items <- py_iter swimlanes ;;
    declared <- for_each declare_swimlane swimlane_items [] ;;
    node_items <- py_iter nodes ;;
    swimlane_nodes <- for_each group_node node_items declared ;;
    cs <- map_result (cluster_stmt swimlane_nodes) (enumerate swimlane_items) ;;
    edges <- py_get diagram_data "edges" (JList []) ;;
    edge_items <- py_iter edges ;;
    es <- map_result edge_stmt edge_items ;;
    ret (mkDigraph None (Some "BPMN Process Flow") (preamble ++ cs ++ es)).
Proof.
  unfold generate_bpmn_diagram.
  cbn [attr a_list for_each a_pair snd fst quote bind ret app name comment body].
  repeat (apply bind_ext; intros ?).
  rewrite (for_each_push _ _ (add_cluster_push _)).
  destruct (map_result (cluster_stmt _) _) as [e | cs]; cbn [bind ret]; [reflexivity |].
  repeat (apply bind_ext; intros ?).
  rewrite (for_each_push _ _ add_edge_push).
  destruct (map_result edge_stmt _) as [e | es]; cbn [bind]; [reflexivity |].
  unfold ret, push_all, preamble; cbn [name comment body]. now rewrite <- app_assoc.
Qed.

(** ** Keys of the [swimlane_nodes] dictionary *)

Lemma py_key_eqb_canon (a b : json) :
  py_key_eqb a b = true <-> hashable a = true /\ hashable b = true /\ canon a = canon b.
Proof.
  destruct a as [| x | n | s | l | l], b as [| y | m | t | l' | l']; simpl;
    try (split; [discriminate | intros (? & ? & ?); discriminate]);
    try (split; [auto | reflexivity]).
  - split.
    + intros H; apply Bool.eqb_prop in H; subst; auto.
    + intros (_ & _ & H); destruct x, y; simpl in *; congruence.
  - rewrite Z.eqb_eq. split; [intros ->; auto | intros (_ & _ & H); congruence].
  - rewrite Z.eqb_eq. split; [intros ->; auto | intros (_ & _ & H); congruence].
  - rewrite Z.eqb_eq. split; [intros ->; auto | intros (_ & _ & H); congruence].
  - rewrite String.eqb_eq. split; [intros ->; auto | intros (_ & _ & H); congruence].
Qed.

Lemma py_key_eqb_hashable_l (a b : json) : py_key_eqb a b = true -> hashable a = true.
Proof. intros H; apply py_key_eqb_canon in H; tauto. Qed.

Lemma py_key_eqb_sym (a b : json) : py_key_eqb a b = py_key_eqb b a.
Proof.
  apply Bool.eq_iff_eq_true. rewrite !py_key_eqb_canon. intuition congruence.
Qed.

Lemma py_key_eqb_refl (a : json) : hashable a = true -> py_key_eqb a a = true.
Proof. intros H; apply py_key_eqb_canon; auto. Qed.

(** Equal keys compare alike with every other key. *)
Lemma py_key_eqb_trans (a b c : json) :
  py_key_eqb a b = true -> py_key_eqb a c = py_key_eqb b c.
Proof.
  intros H; apply py_key_eqb_canon in H; destruct H as (Ha & Hb & Hab).
  apply Bool.eq_iff_eq_true. rewrite !py_key_eqb_canon. intuition congruence.
Qed.

Lemma dict_find_eqb (k k' : json) (d : pydict) :
  py_key_eqb k k' = true -> dict_find k d = dict_find k' d.
Proof.
  intros H; induction d as [| [k1 v1] d IH]; simpl; [reflexivity |].
  rewrite (py_key_eqb_trans _ _ k1 H). now rewrite IH.
Qed.

Lemma dict_find_set (k k' : json) (v : list json) (d : pydict) :
  dict_find k (dict_set k' v d) = if py_key_eqb k k' then Some v else dict_find k d.
Proof.
  induction d as [| [k1 v1] d IH]; simpl; [reflexivity |].
  destruct (py_key_eqb k' k1) eqn:E1; simpl.
  - destruct (py_key_eqb k k') eqn:E.
    + now rewrite (py_key_eqb_trans _ _ k1 E), E1.
    + destruct (py_key_eqb k k1) eqn:E2; [| reflexivity].
      rewrite (py_key_eqb_trans _ _ k' E2), py_key_eqb_sym in E. congruence.
  - rewrite IH. destruct (py_key_eqb k k') eqn:E; [| reflexivity].
    now rewrite (py_key_eqb_trans _ _ k1 E), E1.
Qed.

Lemma dict_find_append (k k' x : json) (d : pydict) :
  dict_find k (dict_append k' x d)
  = if py_key_eqb k k' then option_map (fun v => v ++ [x]) (dict_find k d)
    else dict_find k d.
Proof.
  induction d as [| [k1 v1] d IH]; simpl; [now destruct (py_key_eqb k k') |].
  destruct (py_key_eqb k' k1) eqn:E1; simpl.
  - destruct (py_key_eqb k k') eqn:E.
    + now rewrite (py_key_eqb_trans _ _ k1 E), E1.
    + destruct (py_key_eqb k k1) eqn:E2; [| reflexivity].
      rewrite (py_key_eqb_trans _ _ k' E2), py_key_eqb_sym in E. congruence.
  - rewrite IH. destruct (py_key_eqb k k') eqn:E; [| reflexivity].
    now rewrite (py_key_eqb_trans _ _ k1 E), E1.
Qed.

(** ** The two grouping loops *)

Lemma declare_swimlane_inr (sl : json) (d d' : pydict) :
  declare_swimlane sl d = inr d' ->
  exists k, py_getitem sl "id" = inr k /\ hashable k = true /\ d' = dict_set k [] d.
Proof.
  unfold declare_swimlane, py_hash. intros H.
  destruct (py_getitem sl "id") as [e | k]; [discriminate |]. cbn [bind] in H.
  destruct (hashable k) eqn:Hh; [| discriminate]. cbn in H.
  exists k. repeat split; congruence.
Qed.

(** After the comprehension the keys are the declared ids, each with an
    empty list. *)
Lemma declare_loop (swimlanes : list json) (d d' : pydict) :
  for_each declare_swimlane swimlanes d = inr d' ->
  forallb has_key_id swimlanes = true /\
  forall k, dict_find k d' = if declares swimlanes k then Some [] else dict_find k d.
Proof.
  revert d; induction swimlanes as [| sl sls IH]; intros d H; simpl in H.
  - injection H as <-. split; reflexivity.
  - inv_bind H. apply declare_swimlane_inr in E. destruct E as (k1 & Hk1 & Hh & ->).
    apply IH in H. destruct H as [Hall Hfind].
    split.
    + simpl. unfold has_key_id at 1. now rewrite Hk1, Hh.
    + intros k. rewrite Hfind, dict_find_set. simpl. rewrite Hk1.
      destruct (py_key_eqb k k1), (declares sls k); reflexivity.
Qed.

Lemma declare_loop_total (swimlanes : list json) (d : pydict) :
  forallb has_key_id swimlanes = true ->
  exists d', for_each declare_swimlane swimlanes d = inr d'.
Proof.
  revert d; induction swimlanes as [| sl sls IH]; intros d H; simpl in *.
  - eexists; reflexivity.
  - apply andb_prop in H. destruct H as [Hsl Hsls].
    unfold declare_swimlane, py_hash. unfold has_key_id in Hsl.
    destruct (py_getitem sl "id") as [e | k]; [discriminate |].
    cbn [bind]. rewrite Hsl. cbn [bind ret]. apply IH, Hsls.
Qed.

Lemma group_node_inr (node : json) (d d' : pydict) :
  group_node node d = inr d' ->
  exists v, py_get node "swimlane" (JStr "default") = inr v /\ hashable v = true /\
            d' = match dict_find v d with
                 | Some _ => dict_append v node d
                 | None => d
                 end.
Proof.
  unfold group_node, dict_contains, py_hash. intros H.
  destruct (py_get node "swimlane" (JStr "default")) as [e | v]; [discriminate |].
  cbn [bind] in H. destruct (hashable v) eqn:Hh; [| discriminate]. cbn in H.
  exists v. repeat split; [assumption |]. destruct (dict_find v d); congruence.
Qed.

Lemma lane_nodes_cons (k n : json) (ns : list json) :
  lane_nodes k (n :: ns) = if in_lane k n then n :: lane_nodes k ns else lane_nodes k ns.
Proof. reflexivity. Qed.

(** The node loop appends to the list of each key the nodes of that
    swimlane, and adds no key. *)
Lemma group_loop (nodes : list json) (d d' : pydict) :
  for_each group_node nodes d = inr d' ->
  forallb has_lane nodes = true /\
  forall k, dict_find k d' = option_map (fun l => l ++ lane_nodes k nodes) (dict_find k d).
Proof.
  revert d; induction nodes as [| n ns IH]; intros d H; simpl in H.
  - injection H as <-. split; [reflexivity |].
    intros k. simpl. destruct (dict_find k d); simpl; [now rewrite app_nil_r | reflexivity].
  - inv_bind H. apply group_node_inr in E. destruct E as (v & Hv & Hh & ->).
    apply IH in H. destruct H as [Hall Hfind].
    split.
    + simpl. unfold has_lane at 1. now rewrite Hv, Hh.
    + intros k. rewrite Hfind, lane_nodes_cons. unfold in_lane. rewrite Hv.
      rewrite (py_key_eqb_sym v k).
      destruct (dict_find v d) as [l |] eqn:Ev.
      * rewrite dict_find_append.
        destruct (py_key_eqb k v) eqn:E; [| reflexivity].
        destruct (dict_find k d); simpl; [| reflexivity].
        now rewrite <- app_assoc.
      * destruct (py_key_eqb k v) eqn:E; [| reflexivity].
        now rewrite (dict_find_eqb _ _ d E), Ev.
Qed.

Lemma group_loop_total (nodes : list json) (d : pydict) :
  forallb has_lane nodes = true ->
  exists d', for_each group_node nodes d = inr d'.
Proof.
  revert d; induction nodes as [| n ns IH]; intros d H; simpl in *.
  - eexists; reflexivity.
  - apply andb_prop in H. destruct H as [Hn Hns].
    unfold group_node, dict_contains, py_hash. unfold has_lane in Hn.
    destruct (py_get n "swimlane" (JStr "default")) as [e | v]; [discriminate |].
    cbn [bind]. rewrite Hn. cbn [bind ret].
    destruct (dict_find v d); apply IH, Hns.
Qed.

(** Both loops together: the list under a declared id holds the nodes of
    that swimlane, in input order; no other key exists. *)
Lemma grouped (swimlanes nodes : list json) (declared swimlane_nodes : pydict) :
  for_each declare_swimlane swimlanes [] = inr declared ->
  for_each group_node nodes declared = inr swimlane_nodes ->
  forall k, dict_find k swimlane_nodes
            = if declares swimlanes k then Some (lane_nodes k nodes) else None.
Proof.
  intros Hd Hg k.
  apply declare_loop in Hd. destruct Hd as [_ Hd].
  apply group_loop in Hg. destruct Hg as [_ Hg].
  rewrite Hg, Hd. now destruct (declares swimlanes k).
Qed.

(** ** Node styles *)

Lemma py_eq_str_true (v : json) (s : string) : py_eq_str v s = true <-> v = JStr s.
Proof.
  destruct v; simpl; try (split; [discriminate | intros H; discriminate H]).
  rewrite String.eqb_eq. split; congruence.
Qed.

(** C4. A node is drawn by its type: [start_event] as a small filled green
    circle, [end_event] as a small filled red double circle, [task] as a blue
    rounded box, [gateway] as a yellow diamond, [message] as an orange note,
    and every other type value as a gray rounded box; whatever the type value
    is, the node statement is added and nothing is raised. *)
Theorem node_style_by_type (fields : list (string * json)) (id label : string)
  (t : json) (c : Digraph) :
  lookup "id" fields = Some (JStr id) ->
  lookup "label" fields = Some (JStr label) ->
  lookup "type" fields = Some t ->
  exists style : attr_list,
    add_node (JDict fields) c = inr (push (NodeStmt id (("label", label) :: style)) c) /\
    (t = JStr "start_event" ->
     style = [("shape", "circle"); ("style", "filled"); ("fillcolor", "#4CAF50");
              ("fontcolor", "white"); ("width", "0.6"); ("height", "0.6");
              ("fixedsize", "true")]) /\
    (t = JStr "end_event" ->
     style = [("shape", "doublecircle"); ("style", "filled"); ("fillcolor", "#F44336");
              ("fontcolor", "white"); ("width", "0.6"); ("height", "0.6");
              ("fixedsize", "true")]) /\
    (t = JStr "task" ->
     style = [("shape", "box"); ("style", "rounded,filled"); ("fillcolor", "#2196F3");
              ("fontcolor", "white")]) /\
    (t = JStr "gateway" ->
     style = [("shape", "diamond"); ("style", "filled"); ("fillcolor", "#FFC107");
              ("fontcolor", "black")]) /\
    (t = JStr "message" ->
     style = [("shape", "note"); ("style", "filled"); ("fillcolor", "#FF9800");
              ("fontcolor", "white")]) /\
    (t <> JStr "start_event" -> t <> JStr "end_event" -> t <> JStr "task" ->
     t <> JStr "gateway" -> t <> JStr "message" ->
     style = [("shape", "box"); ("style", "rounded,filled"); ("fillcolor", "#9E9E9E");
              ("fontcolor", "white")]).
Proof.
  intros Hid Hlabel Htype.
  rewrite add_node_push. unfold node_stmt, py_get, py_getitem.
  rewrite Hid, Hlabel, Htype. cbn [bind ret quote]. unfold node_style.
  destruct (py_eq_str t "start_event") eqn:E1;
    [| destruct (py_eq_str t "end_event") eqn:E2;
       [| destruct (py_eq_str t "task") eqn:E3;
          [| destruct (py_eq_str t "gateway") eqn:E4;
             [| destruct (py_eq_str t "message") eqn:E5]]]];
    cbn; eexists; (split; [reflexivity |]);
    repeat split;
    try (intros ->; first [reflexivity | discriminate]);
    try (intros; exfalso;
         repeat match goal with
                | E : py_eq_str _ _ = true |- _ => apply py_eq_str_true in E
                end; congruence).
Qed.

Lemma node_style_by_type_witness :
  exists style : attr_list,
    add_node (JDict a_task_node) an_empty_cluster
    = inr (push (NodeStmt "review" (("label", "Review") :: style)) an_empty_cluster) /\
    style = [("shape", "box"); ("style", "rounded,filled"); ("fillcolor", "#2196F3");
             ("fontcolor", "white")].
Proof.
  destruct (node_style_by_type a_task_node "review" "Review" (JStr "task")
              an_empty_cluster eq_refl eq_refl eq_refl)
    as (style & Hadd & _ & _ & Htask & _).
  exists style. split; [exact Hadd | exact (Htask eq_refl)].
Defined.

(** C10. A node without a [type] field is drawn as a task, a blue rounded
    box, exactly as if it carried the type [task]; the gray style is for type
    values that are present and not recognised. *)
Theorem missing_type_is_task (fields : list (string * json)) (id label : string)
  (c : Digraph) :
  lookup "id" fields = Some (JStr id) ->
  lookup "label" fields = Some (JStr label) ->
  lookup "type" fields = None ->
  add_node (JDict fields) c
  = inr (push (NodeStmt id [("label", label); ("shape", "box");
                            ("style", "rounded,filled"); ("fillcolor", "#2196F3");
                            ("fontcolor", "white")]) c) /\
  add_node (JDict fields) c = add_node (JDict (("type", JStr "task") :: fields)) c.
Proof.
  intros Hid Hlabel Htype.
  rewrite !add_node_push. unfold node_stmt, py_get, py_getitem.
  cbn [lookup String.eqb Ascii.eqb Bool.eqb].
  rewrite Hid, Hlabel, Htype. split; reflexivity.
Qed.

Lemma missing_type_is_task_witness :
  add_node (JDict an_untyped_node) an_empty_cluster
  = inr (push (NodeStmt "review" [("label", "Review"); ("shape", "box");
                                  ("style", "rounded,filled"); ("fillcolor", "#2196F3");
                                  ("fontcolor", "white")]) an_empty_cluster).
Proof.
  exact (proj1 (missing_type_is_task an_untyped_node "review" "Review"
                  an_empty_cluster eq_refl eq_refl eq_refl)).
Defined.

(** ** The generate handler *)

Lemma accepted_missing_key (entries : list (string * json)) :
  lookup "diagram_json" entries = None \/ lookup "bpmn_xml" entries = None ->
  accepted (JDict entries) = inr false.
Proof.
  intros H. unfold accepted, py_contains.
  destruct (truthy (JDict entries)); [| reflexivity]. cbn [bind ret].
  destruct H as [H | H]; rewrite H; [reflexivity |].
  now destruct (lookup "diagram_json" entries).
Qed.



Lemma accepted_inl (v : json) (e : exn) : accepted v = inl e -> e = TypeError.
Proof.
  unfold accepted. destruct (truthy v); [| discriminate].
  destruct v; cbn; intros H; try (now injection H);
    repeat match goal with
           | H : context [if ?b then _ else _] |- _ => destruct b
           end; discriminate H.
Qed.

(** C8, as the code has it.  A response that parses to a value other than
    a JSON object with both keys comes back from [get_structured_process_flow]
    as a normal result, with nothing shown, and no part of it is ever stored.
    When it is a JSON object, the handler rejects it: it shows the failure
    message, raises nothing and sets the status to false.  When it is no
    object, the handler rejects it in the same way, or the run ends in a
    [TypeError] that leaves the session, status included, as it was. *)
Theorem incomplete_response_is_never_stored (st : session_state) (user_input : text)
  (v : json) :
  (20 <= List.length (py_strip user_input))%nat ->
  has_both_keys v = false ->
  let r := main st true user_input true (ValidJson v) in
  get_structured_process_flow true (ValidJson v) user_input = ([], v) /\
  (r = mkRun (mkSession false (diagram_data st) (bpmn_xml st) (graph_obj st))
             [st_error FailedToGenerate] None \/
   r = mkRun st [] (Some TypeError)) /\
  (forall entries, v = JDict entries ->
     accepted v = inr false /\
     r = mkRun (mkSession false (diagram_data st) (bpmn_xml st) (graph_obj st))
               [st_error FailedToGenerate] None).
Proof.
  intros Hlen Hkeys r. subst r. split; [reflexivity |].
  assert (Hobject : forall entries, v = JDict entries -> accepted v = inr false).
  { intros entries ->. apply accepted_missing_key. unfold has_both_keys in Hkeys.
    destruct (lookup "diagram_json" entries); [| now left].
    destruct (lookup "bpmn_xml" entries); [discriminate Hkeys | now right]. }
  assert (Hrun : forall x, accepted v = inr x ->
            main st true user_input true (ValidJson v)
            = (if x then mkRun st [] (Some TypeError)
               else mkRun (set_diagram_generated false st) [st_error FailedToGenerate] None)).
  { intros x Hx. unfold main. cbn [negb]. apply Nat.ltb_ge in Hlen. rewrite Hlen.
    cbn [get_structured_process_flow negb]. rewrite Hx.
    destruct x; [| reflexivity].
    destruct v as [| b | n | s | items | entries]; try reflexivity.
    rewrite (Hobject entries eq_refl) in Hx. discriminate Hx. }
  destruct (accepted v) as [e | x] eqn:Hacc.
  - assert (Hraised : main st true user_input true (ValidJson v)
                      = mkRun st [] (Some TypeError)).
    { unfold main. cbn [negb]. apply Nat.ltb_ge in Hlen. rewrite Hlen.
      cbn [get_structured_process_flow negb]. rewrite Hacc.
      now rewrite (accepted_inl v e Hacc). }
    rewrite Hraised. split; [now right |].
    intros entries Hv. discriminate (Hobject entries Hv).
  - rewrite (Hrun x eq_refl). destruct x.
    + split; [now right |]. intros entries Hv. discriminate (Hobject entries Hv).
    + split; [now left |]. intros entries Hv. split; reflexivity.
Qed.

Lemma incomplete_response_is_never_stored_witness :
  main a_generated_session true a_description true
    (ValidJson (JDict [("diagram_json", scenario)]))
  = mkRun (mkSession false (diagram_data a_generated_session)
             (bpmn_xml a_generated_session) (graph_obj a_generated_session))
          [st_error FailedToGenerate] None.
Proof.
  refine (proj2 (proj2 (proj2
           (incomplete_response_is_never_stored a_generated_session a_description
              (JDict [("diagram_json", scenario)]) _ eq_refl))
           [("diagram_json", scenario)] eq_refl)).
  vm_compute. repeat constructor.
Defined.

(** C8, as stated, fails.  An object without [bpmn_xml] comes back from
    [get_structured_process_flow] as a normal result with nothing shown, not
    as an error; and the body [5], valid JSON without either key, is not
    rejected at all: the run ends in an uncaught [TypeError] and the status
    stays true. *)
Lemma incomplete_response_is_no_extractor_error :
  get_structured_process_flow true (ValidJson (JDict [("diagram_json", scenario)]))
    a_description
  = ([], JDict [("diagram_json", scenario)]) /\
  has_both_keys (JInt 5) = false /\
  main a_generated_session true a_description true (ValidJson (JInt 5))
  = mkRun a_generated_session [] (Some TypeError) /\
  diagram_generated a_generated_session = true.
Proof.
  repeat split.
Qed.




(** ** The shape of a rendered diagram *)

Lemma generate_fields (g : json) :
  generate_bpmn_diagram g
  = swimlane_items <- graph_swimlanes g ;;
    declared <- for_each declare_swimlane swimlane_items [] ;;
    node_items <- graph_nodes g ;;
    swimlane_nodes <- for_each group_node node_items declared ;;
    cs <- map_result (cluster_stmt swimlane_nodes) (enumerate swimlane_items) ;;
    edge_items <- graph_edges g ;;
    es <- map_result edge_stmt edge_items ;;
    ret (mkDigraph None (Some "BPMN Process Flow") (preamble ++ cs ++ es)).
Proof.
  rewrite generate_eq. unfold graph_swimlanes, graph_nodes, graph_edges.
  destruct g as [| b | n | s | items | entries]; try reflexivity.
  unfold py_get.
  destruct (lookup "swimlanes" entries), (lookup "nodes" entries),
    (lookup "edges" entries); reflexivity.
Qed.

(** What a successful call has gone through. *)
Lemma generate_inr (g : json) (d : Digraph) :
  generate_bpmn_diagram g = inr d ->
  exists sls ns es declared swimlane_nodes cs ess,
    graph_swimlanes g = inr sls /\
    for_each declare_swimlane sls [] = inr declared /\
    graph_nodes g = inr ns /\
    for_each group_node ns declared = inr swimlane_nodes /\
    map_result (cluster_stmt swimlane_nodes) (enumerate sls) = inr cs /\
    graph_edges g = inr es /\
    map_result edge_stmt es = inr ess /\
    d = mkDigraph None (Some "BPMN Process Flow") (preamble ++ cs ++ ess).
Proof.
  rewrite generate_fields. intros H.
  inv_bind H. rename a into sls, E into Hsls.
  inv_bind H. rename a into declared, E into Hdecl.
  inv_bind H. rename a into ns, E into Hns.
  inv_bind H. rename a into sn, E into Hsn.
  inv_bind H. rename a into cs, E into Hcs.
  inv_bind H. rename a into es, E into Hes.
  inv_bind H. rename a into ess, E into Hess.
  injection H as <-.
  exists sls, ns, es, declared, sn, cs, ess. repeat split; assumption.
Qed.

Lemma map_result_map {A B C : Type} (f : A -> result B) (g : B -> C) (h : A -> C)
  (l : list A) (ys : list B) :
  (forall x y, f x = inr y -> g y = h x) ->
  map_result f l = inr ys -> map g ys = map h l.
Proof.
  intros Hfg. revert ys; induction l as [| x l IH]; intros ys H; simpl in H.
  - now injection H as <-.
  - inv_bind H. inv_bind H. injection H as <-. simpl.
    f_equal; [now apply Hfg | now apply IH].
Qed.

Lemma map_result_forallb {A B : Type} (f : A -> result B) (p : B -> bool)
  (l : list A) (ys : list B) :
  (forall x y, f x = inr y -> p y = true) ->
  map_result f l = inr ys -> forallb p ys = true.
Proof.
  intros Hp. revert ys; induction l as [| x l IH]; intros ys H; simpl in H.
  - now injection H as <-.
  - inv_bind H. inv_bind H. injection H as <-. simpl.
    rewrite (Hp _ _ E). now apply IH.
Qed.


Lemma filter_all {A : Type} (p : A -> bool) (l : list A) :
  forallb p l = true -> filter p l = l.
Proof.
  induction l as [| x l IH]; simpl; [reflexivity |].
  intros H; apply andb_prop in H; destruct H as [Hx Hl]. rewrite Hx. now rewrite IH.
Qed.

Lemma filter_none {A : Type} (p : A -> bool) (l : list A) :
  forallb (fun x => negb (p x)) l = true -> filter p l = [].
Proof.
  induction l as [| x l IH]; simpl; [reflexivity |].
  intros H; apply andb_prop in H; destruct H as [Hx Hl].
  apply negb_true_iff in Hx. rewrite Hx. now apply IH.
Qed.

Lemma edge_stmt_is_edge (e : json) (s : statement) :
  edge_stmt e = inr s -> is_edge s = true /\ is_subgraph s = false.
Proof.
  unfold edge_stmt. intros H. repeat inv_bind H. injection H as <-. split; reflexivity.
Qed.

Lemma cluster_stmt_is_subgraph (swimlane_nodes : pydict) (entry : nat * json)
  (s : statement) :
  cluster_stmt swimlane_nodes entry = inr s -> is_subgraph s = true /\ is_edge s = false.
Proof.
  unfold cluster_stmt. intros H. repeat inv_bind H. injection H as <-. split; reflexivity.
Qed.

(** The clusters of a rendered diagram are the statements of the swimlane
    loop, and its connectors those of the edge loop. *)
Lemma rendered_parts (swimlane_nodes : pydict) (entries : list (nat * json))
  (es : list json) (cs ess : list statement) (d : Digraph) :
  map_result (cluster_stmt swimlane_nodes) entries = inr cs ->
  map_result edge_stmt es = inr ess ->
  d = mkDigraph None (Some "BPMN Process Flow") (preamble ++ cs ++ ess) ->
  clusters d = cs /\ connectors d = ess.
Proof.
  intros Hcs Hess ->. unfold clusters, connectors. cbn [body].
  rewrite !filter_app. cbn [preamble filter is_subgraph is_edge app].
  split.
  - rewrite (filter_all is_subgraph cs), (filter_none is_subgraph ess).
    + apply app_nil_r.
    + apply (map_result_forallb edge_stmt _ es); [| assumption].
      intros x y Hxy. apply edge_stmt_is_edge in Hxy. now destruct Hxy as [_ ->].
    + apply (map_result_forallb (cluster_stmt swimlane_nodes) _ entries);
        [| assumption].
      intros x y Hxy. now apply cluster_stmt_is_subgraph in Hxy.
  - rewrite (filter_none is_edge cs), (filter_all is_edge ess).
    + reflexivity.
    + apply (map_result_forallb edge_stmt _ es); [| assumption].
      intros x y Hxy. now apply edge_stmt_is_edge in Hxy.
    + apply (map_result_forallb (cluster_stmt swimlane_nodes) _ entries);
        [| assumption].
      intros x y Hxy. apply cluster_stmt_is_subgraph in Hxy. now destruct Hxy as [_ ->].
Qed.

(** The sample graph: two clusters, a circle, a diamond and two double
    circles, and the edges with their labels. *)
Example scenario_diagram :
  exists d,
    generate_bpmn_diagram scenario = inr d /\
    map cluster_id (clusters d) = [Some "cluster_customer"; Some "cluster_agent"] /\
    shapes d = ["circle"; "diamond"; "doublecircle"; "doublecircle"] /\
    connectors d = [EdgeStmt "start" "review" [("label", "")];
                    EdgeStmt "review" "approved" [("label", "Approved")];
                    EdgeStmt "review" "rejected" [("label", "Rejected")]].
Proof.
  eexists. split; [reflexivity |]. repeat split.
Qed.

(** ** Swimlane colours *)


Lemma list_index_inr (l : list string) (i : nat) (x : string) :
  list_index l i = inr x -> nth_error l i = Some x.
Proof.
  unfold list_index. destruct (nth_error l i); simpl; congruence.
Qed.





(** ** When the renderer returns *)

Lemma map_result_total {A B : Type} (f : A -> result B) (l : list A) :
  (forall x, In x l -> exists y, f x = inr y) ->
  exists ys, map_result f l = inr ys.
Proof.
  induction l as [| x l IH]; intros H; simpl.
  - eexists; reflexivity.
  - destruct (H x (or_introl eq_refl)) as [y ->].
    destruct IH as [ys ->]; [intros x' Hx'; apply H; now right |].
    eexists; reflexivity.
Qed.

Lemma map_result_In {A B : Type} (f : A -> result B) (l : list A) (ys : list B) :
  map_result f l = inr ys -> forall x, In x l -> exists y, f x = inr y.
Proof.
  revert ys; induction l as [| x l IH]; intros ys H x' Hx'; simpl in *; [tauto |].
  inv_bind H. inv_bind H.
  destruct Hx' as [<- | Hx']; [eauto | eapply IH; eauto].
Qed.

Lemma enumerate_from_In {A : Type} (l : list A) (start i : nat) (x : A) :
  In (i, x) (enumerate_from start l) -> In x l.
Proof.
  revert start; induction l as [| y l IH]; intros start H; simpl in *; [tauto |].
  destruct H as [H | H]; [injection H as _ <-; now left | right; eapply IH; eauto].
Qed.

Lemma In_enumerate_from {A : Type} (l : list A) (start : nat) (x : A) :
  In x l -> exists i, In (i, x) (enumerate_from start l).
Proof.
  revert start; induction l as [| y l IH]; intros start H; simpl in *; [tauto |].
  destruct H as [<- | H]; [exists start; now left |].
  destruct (IH (S start) H) as [i Hi]. exists i; now right.
Qed.

Lemma a_list_label_ok (label : json) (kwargs : list (string * json)) (a : attr_list) :
  a_list label kwargs = inr a -> label_ok label = true.
Proof.
  unfold a_list. cbn [for_each]. destruct label; cbn; intros H;
    first [reflexivity | discriminate H].
Qed.

Lemma a_list_style (label node_type : json) :
  label_ok label = true -> exists a, a_list label (node_style node_type) = inr a.
Proof.
  intros H. unfold node_style.
  repeat match goal with
         | |- context [if ?b then _ else _] => destruct b
         end;
    destruct label; try discriminate H; cbn; eexists; reflexivity.
Qed.

Lemma node_stmt_total (node : json) :
  node_drawn_ok node = true -> exists s, node_stmt node = inr s.
Proof.
  unfold node_drawn_ok, node_stmt. intros H.
  destruct node as [| b | n | s | items | entries]; try discriminate H.
  unfold py_get. destruct (lookup "type" entries) as [t |]; cbn [bind ret];
    (destruct (py_getitem (JDict entries) "id") as [e | id]; [discriminate H |];
     destruct (py_getitem (JDict entries) "label") as [e | label]; [discriminate H |];
     apply andb_prop in H; destruct H as [Hid Hlabel];
     destruct id; try discriminate Hid; cbn [bind ret quote];
     match goal with
     | |- context [a_list label (node_style ?t)] =>
         destruct (a_list_style label t Hlabel) as [a ->]
     end; eexists; reflexivity).
Qed.

Lemma node_stmt_inr (node : json) (s : statement) :
  node_stmt node = inr s -> node_drawn_ok node = true.
Proof.
  unfold node_stmt, node_drawn_ok. intros H.
  inv_bind H. inv_bind H. rewrite E0. inv_bind H. rewrite E1.
  inv_bind H. inv_bind H. apply a_list_label_ok in E3. rewrite E3.
  destruct a0; try discriminate E2. reflexivity.
Qed.

Lemma edge_stmt_total (e : json) : edge_ok e = true -> exists s, edge_stmt e = inr s.
Proof.
  unfold edge_ok, edge_stmt. intros H.
  destruct (py_getitem e "from") as [x | t]; [discriminate H |].
  destruct (py_getitem e "to") as [x | h]; [discriminate H |].
  destruct (py_get e "label" (JStr "")) as [x | l]; [discriminate H |].
  apply andb_prop in H; destruct H as [H Hl]. apply andb_prop in H; destruct H as [Ht Hh].
  destruct t; try discriminate Ht. destruct h; try discriminate Hh.
  destruct l; try discriminate Hl; cbn; eexists; reflexivity.
Qed.

Lemma edge_stmt_inr (e : json) (s : statement) : edge_stmt e = inr s -> edge_ok e = true.
Proof.
  unfold edge_stmt, edge_ok. intros H.
  inv_bind H. rewrite E. inv_bind H. rewrite E0. inv_bind H. rewrite E1.
  inv_bind H. inv_bind H. inv_bind H. apply a_list_label_ok in E4. rewrite E4.
  destruct a; try discriminate E2. destruct a0; try discriminate E3. reflexivity.
Qed.

Lemma cluster_name_total (k : json) :
  hashable k = true -> exists nm, cluster_name k = inr nm.
Proof.
  unfold cluster_name. destruct k as [| [|] | n | s | l | l]; simpl; intros H;
    try discriminate H; eexists; reflexivity.
Qed.

(** Where the comprehension has returned, the f-string of every swimlane is
    formatted: the [TypeError] of [cluster_name] is never raised. *)
Lemma cluster_name_reached (swimlanes : list json) (d declared : pydict) (sl k : json) :
  for_each declare_swimlane swimlanes d = inr declared ->
  In sl swimlanes -> py_getitem sl "id" = inr k ->
  exists nm, cluster_name k = inr nm.
Proof.
  intros Hd Hin Hk. apply declare_loop in Hd. destruct Hd as [Hall _].
  rewrite forallb_forall in Hall. specialize (Hall sl Hin).
  unfold has_key_id in Hall. rewrite Hk in Hall. now apply cluster_name_total.
Qed.

Lemma declares_eqb (swimlanes : list json) (k k' : json) :
  py_key_eqb k k' = true -> declares swimlanes k = declares swimlanes k'.
Proof.
  intros H. unfold declares. induction swimlanes as [| sl sls IH]; simpl; [reflexivity |].
  rewrite IH. destruct (py_getitem sl "id") as [e | k1]; [reflexivity |].
  now rewrite (py_key_eqb_trans _ _ k1 H).
Qed.

Lemma declares_own_id (swimlanes : list json) (sl k : json) :
  In sl swimlanes -> py_getitem sl "id" = inr k -> hashable k = true ->
  declares swimlanes k = true.
Proof.
  intros Hin Hk Hh. unfold declares. apply existsb_exists. exists sl. split; [assumption |].
  rewrite Hk. now apply py_key_eqb_refl.
Qed.

Lemma declares_inv (swimlanes : list json) (k : json) :
  declares swimlanes k = true ->
  exists sl k', In sl swimlanes /\ py_getitem sl "id" = inr k' /\ py_key_eqb k k' = true.
Proof.
  unfold declares. intros H. apply existsb_exists in H. destruct H as (sl & Hin & H).
  destruct (py_getitem sl "id") as [e | k'] eqn:E; [discriminate H |].
  exists sl, k'. auto.
Qed.

Lemma palette_index (idx : nat) :
  exists c, list_index colors (idx mod List.length colors) = inr c.
Proof.
  unfold list_index.
  destruct (nth_error colors (idx mod List.length colors)) as [c |] eqn:E; [eauto |].
  apply nth_error_None in E.
  pose proof (Nat.mod_upper_bound idx (List.length colors)) as Hlt.
  cbn [List.length colors] in *. lia.
Qed.

Lemma dict_get_grouped (swimlanes nodes : list json) (declared swimlane_nodes : pydict)
  (k : json) :
  for_each declare_swimlane swimlanes [] = inr declared ->
  for_each group_node nodes declared = inr swimlane_nodes ->
  hashable k = true ->
  dict_get k swimlane_nodes
  = inr (if declares swimlanes k then lane_nodes k nodes else []).
Proof.
  intros Hd Hg Hk. unfold dict_get, py_hash. rewrite Hk. cbn [bind ret].
  rewrite (grouped _ _ _ _ Hd Hg k). now destruct (declares swimlanes k).
Qed.

Lemma swimlane_ok_inv (sl : json) :
  swimlane_ok sl = true ->
  exists k l, py_getitem sl "id" = inr k /\ py_getitem sl "label" = inr l /\
              hashable k = true /\ label_ok l = true.
Proof.
  unfold swimlane_ok. intros H.
  destruct (py_getitem sl "id") as [e | k]; [discriminate H |].
  destruct (py_getitem sl "label") as [e | l]; [discriminate H |].
  apply andb_prop in H. destruct H. exists k, l. auto.
Qed.

Lemma node_ok_inv (swimlanes : list json) (node : json) :
  node_ok swimlanes node = true ->
  exists v, py_get node "swimlane" (JStr "default") = inr v /\ hashable v = true /\
            (declares swimlanes v = true -> node_drawn_ok node = true).
Proof.
  unfold node_ok. intros H.
  destruct (py_get node "swimlane" (JStr "default")) as [e | v]; [discriminate H |].
  apply andb_prop in H. destruct H as [Hh H]. exists v. repeat split; [assumption |].
  intros Hd. now rewrite Hd in H.
Qed.

(** The statement of a swimlane is built whenever the swimlane and the nodes
    of the graph are in order. *)
Lemma cluster_stmt_total (swimlanes nodes : list json) (declared swimlane_nodes : pydict)
  (idx : nat) (sl : json) :
  for_each declare_swimlane swimlanes [] = inr declared ->
  for_each group_node nodes declared = inr swimlane_nodes ->
  In sl swimlanes -> swimlane_ok sl = true ->
  forallb (node_ok swimlanes) nodes = true ->
  exists s, cluster_stmt swimlane_nodes (idx, sl) = inr s.
Proof.
  intros Hd Hg Hin Hsl Hnodes.
  apply swimlane_ok_inv in Hsl. destruct Hsl as (k & l & Hk & Hl & Hh & Hlabel).
  unfold cluster_stmt. cbn [fst snd]. rewrite Hk, Hl. cbn [bind].
  destruct (cluster_name_total k Hh) as [nm ->]. cbn [bind].
  destruct (palette_index idx) as [fill ->]. cbn [bind].
  assert (Ha : exists a, a_list JNull
                 [("label", l); ("style", JStr "filled"); ("color", JStr "#666666");
                  ("fillcolor", JStr fill); ("fontsize", JStr "14");
                  ("fontname", JStr "Arial Bold")] = inr a)
    by (destruct l; try discriminate Hlabel; cbn; eexists; reflexivity).
  destruct Ha as [a ->]. cbn [bind].
  rewrite (dict_get_grouped _ _ _ _ k Hd Hg Hh), (declares_own_id _ _ _ Hin Hk Hh).
  cbn [bind].
  destruct (map_result_total node_stmt (lane_nodes k nodes)) as [ss ->];
    [| eexists; reflexivity].
  intros n Hn. apply filter_In in Hn. destruct Hn as [Hn Hlane].
  apply node_stmt_total.
  rewrite forallb_forall in Hnodes. specialize (Hnodes n Hn).
  apply node_ok_inv in Hnodes. destruct Hnodes as (v & Hv & _ & Hdrawn).
  apply Hdrawn. unfold in_lane in Hlane. rewrite Hv in Hlane.
  rewrite (declares_eqb _ _ _ Hlane). exact (declares_own_id _ _ _ Hin Hk Hh).
Qed.

Lemma cluster_stmt_inv (swimlane_nodes : pydict) (idx : nat) (sl : json) (s : statement) :
  cluster_stmt swimlane_nodes (idx, sl) = inr s ->
  swimlane_ok sl = true /\
  exists k nm nodes ss a,
    py_getitem sl "id" = inr k /\ cluster_name k = inr nm /\
    dict_get k swimlane_nodes = inr nodes /\
    map_result node_stmt nodes = inr ss /\
    s = SubgraphStmt nm (AttrStmt None a :: ss).
Proof.
  unfold cluster_stmt. cbn [fst snd]. intros H.
  inv_bind H. rename a into k, E into Hk.
  inv_bind H. rename a into nm, E into Hnm.
  inv_bind H. rename a into l, E into Hl.
  inv_bind H. inv_bind H. rename a0 into attrs, E0 into Hattrs.
  inv_bind H. rewrite Hk in E0. injection E0 as <-.
  inv_bind H. rename a0 into nodes, E0 into Hnodes.
  inv_bind H. rename a0 into ss, E0 into Hss.
  injection H as <-.
  split.
  - unfold swimlane_ok. rewrite Hk, Hl.
    assert (Hh : hashable k = true)
      by (unfold dict_get, py_hash in Hnodes; destruct (hashable k);
          [reflexivity | discriminate Hnodes]).
    rewrite Hh. clear - Hattrs. destruct l; cbn in Hattrs; try discriminate Hattrs;
      reflexivity.
  - exists k, nm, nodes, ss, attrs. auto.
Qed.

Lemma has_key_id_of_ok (swimlanes : list json) :
  forallb swimlane_ok swimlanes = true -> forallb has_key_id swimlanes = true.
Proof.
  rewrite !forallb_forall. intros H sl Hin. specialize (H sl Hin).
  apply swimlane_ok_inv in H. destruct H as (k & l & Hk & _ & Hh & _).
  unfold has_key_id. now rewrite Hk.
Qed.

Lemma has_lane_of_ok (swimlanes nodes : list json) :
  forallb (node_ok swimlanes) nodes = true -> forallb has_lane nodes = true.
Proof.
  rewrite !forallb_forall. intros H n Hin. specialize (H n Hin).
  apply node_ok_inv in H. destruct H as (v & Hv & Hh & _).
  unfold has_lane. now rewrite Hv.
Qed.

(** A graph that is in order renders. *)
Lemma renderable_renders (g : json) :
  renderable g = true -> exists d, generate_bpmn_diagram g = inr d.
Proof.
  unfold renderable. intros H.
  destruct (graph_swimlanes g) as [e | sls] eqn:Hsls; [discriminate H |].
  destruct (graph_nodes g) as [e | ns] eqn:Hns; [discriminate H |].
  destruct (graph_edges g) as [e | es] eqn:Hes; [discriminate H |].
  apply andb_prop in H. destruct H as [H Hedges].
  apply andb_prop in H. destruct H as [Hlanes Hnodes].
  rewrite generate_fields, Hsls, Hns, Hes. cbn [bind].
  destruct (declare_loop_total sls [] (has_key_id_of_ok _ Hlanes)) as [declared Hd].
  rewrite Hd. cbn [bind].
  destruct (group_loop_total ns declared (has_lane_of_ok _ _ Hnodes)) as [sn Hg].
  rewrite Hg. cbn [bind].
  destruct (map_result_total (cluster_stmt sn) (enumerate sls)) as [cs ->].
  { intros [i sl] Hin. apply enumerate_from_In in Hin.
    apply (cluster_stmt_total sls ns declared sn i sl Hd Hg Hin); [| assumption].
    rewrite forallb_forall in Hlanes. now apply Hlanes. }
  cbn [bind].
  destruct (map_result_total edge_stmt es) as [ess ->].
  { intros e Hin. apply edge_stmt_total. rewrite forallb_forall in Hedges. now apply Hedges. }
  eexists; reflexivity.
Qed.

(** A graph that renders is in order. *)
Lemma renders_renderable (g : json) (d : Digraph) :
  generate_bpmn_diagram g = inr d -> renderable g = true.
Proof.
  intros H. apply generate_inr in H.
  destruct H as (sls & ns & es & declared & sn & cs & ess
                 & Hsls & Hd & Hns & Hg & Hcs & Hes & Hess & _).
  unfold renderable. rewrite Hsls, Hns, Hes.
  assert (Hlanes : forall sl, In sl sls -> exists i s, cluster_stmt sn (i, sl) = inr s).
  { intros sl Hin. destruct (In_enumerate_from sls 0 sl Hin) as [i Hi].
    destruct (map_result_In _ _ _ Hcs _ Hi) as [s Hs]. eauto. }
  apply andb_true_intro; split; [apply andb_true_intro; split |]; apply forallb_forall.
  - intros sl Hin. destruct (Hlanes sl Hin) as (i & s & Hs).
    now apply cluster_stmt_inv in Hs.
  - intros n Hin. unfold node_ok.
    pose proof (proj1 (group_loop _ _ _ Hg)) as Hall.
    rewrite forallb_forall in Hall. specialize (Hall n Hin). unfold has_lane in Hall.
    destruct (py_get n "swimlane" (JStr "default")) as [e | v] eqn:Hv; [discriminate Hall |].
    rewrite Hall. cbn [andb].
    destruct (declares sls v) eqn:Hdecl; [| reflexivity].
    destruct (declares_inv _ _ Hdecl) as (sl & k' & Hsl & Hk' & Heq).
    destruct (Hlanes sl Hsl) as (i & s & Hs).
    apply cluster_stmt_inv in Hs.
    destruct Hs as (_ & k & nm & nodes & ss & a & Hk & _ & Hget & Hss & _).
    rewrite Hk' in Hk. injection Hk as <-.
    rewrite (py_key_eqb_sym v k') in Heq.
    rewrite (dict_get_grouped _ _ _ _ k' Hd Hg (py_key_eqb_hashable_l _ _ Heq)) in Hget.
    rewrite py_key_eqb_sym in Heq.
    rewrite <- (declares_eqb sls _ _ Heq), Hdecl in Hget. injection Hget as <-.
    destruct (map_result_In _ _ _ Hss n) as [s' Hs'].
    { apply filter_In. split; [assumption |]. unfold in_lane. now rewrite Hv. }
    now apply node_stmt_inr in Hs'.
  - intros e Hin. destruct (map_result_In _ _ _ Hess e Hin) as [s Hs].
    now apply edge_stmt_inr in Hs.
Qed.

(** ** Malformed graphs *)

(** C1, as stated, fails: a swimlane without an [id] makes the renderer
    raise [KeyError]. *)
Lemma render_raises_without_id :
  generate_bpmn_diagram a_graph_without_id = inl (KeyError "id") /\
  ~ exists d, generate_bpmn_diagram a_graph_without_id = inr d.
Proof.
  split; [reflexivity |]. intros [d H]. discriminate H.
Qed.

(** C1, as the code has it.  The renderer always ends, and it returns a
    diagram exactly for the graphs that are in order: a JSON object whose
    swimlanes, nodes and edges, where present, can be iterated; every
    swimlane entry an object with an id that can be a dictionary key and a
    label that is a string or null; every node an object whose swimlane can be
    a dictionary key, with a string id and a string or null label when that
    swimlane is declared; every edge an object with strings as [from] and
    [to] and a string or null label, if any.  Absent lists, an absent type,
    swimlane or edge label, unknown types, nodes of undeclared swimlanes and
    dangling edges do not make it raise. *)
Theorem render_returns_iff_renderable (g : json) :
  renderable g = true <-> exists d, generate_bpmn_diagram g = inr d.
Proof.
  split.
  - apply renderable_renders.
  - intros [d H]. exact (renders_renderable g d H).
Qed.

Lemma render_returns_iff_renderable_witness :
  renderable a_degraded_graph = true /\
  exists d, generate_bpmn_diagram a_degraded_graph = inr d.
Proof.
  split; [reflexivity |].
  exact (proj1 (render_returns_iff_renderable a_degraded_graph) eq_refl).
Defined.

(** ** Graphs that follow the schema *)

Lemma has_str_inv (k : string) (v : json) :
  has_str k v = true ->
  exists entries s, v = JDict entries /\ lookup k entries = Some (JStr s).
Proof.
  unfold has_str, str_field, py_getitem. intros H.
  destruct v as [| b | n | t | items | entries]; try discriminate H.
  destruct (lookup k entries) as [[| b | n | t | items | entries'] |] eqn:E;
    cbn in H; try discriminate H.
  eauto.
Qed.

Lemma valid_swimlane_ok (sl : json) : valid_swimlane sl = true -> swimlane_ok sl = true.
Proof.
  unfold valid_swimlane. intros H. apply andb_prop in H. destruct H as [Hid Hlabel].
  apply has_str_inv in Hid. destruct Hid as (entries & s & -> & Hid).
  apply has_str_inv in Hlabel. destruct Hlabel as (entries' & l & Heq & Hlabel).
  injection Heq as <-.
  unfold swimlane_ok, py_getitem. now rewrite Hid, Hlabel.
Qed.

Lemma valid_node_ok (swimlanes : list json) (n : json) :
  valid_node n = true -> node_ok swimlanes n = true.
Proof.
  unfold valid_node. intros H.
  apply andb_prop in H. destruct H as [H Hlane].
  apply andb_prop in H. destruct H as [H _].
  apply andb_prop in H. destruct H as [Hid Hlabel].
  apply has_str_inv in Hid. destruct Hid as (entries & s & -> & Hid).
  apply has_str_inv in Hlabel. destruct Hlabel as (entries' & l & Heq & Hlabel).
  injection Heq as <-.
  apply has_str_inv in Hlane. destruct Hlane as (entries' & v & Heq & Hlane).
  injection Heq as <-.
  unfold node_ok, node_drawn_ok, py_get, py_getitem. rewrite Hid, Hlabel, Hlane.
  cbn. now destruct (declares swimlanes (JStr v)).
Qed.

Lemma valid_edge_ok (e : json) : valid_edge e = true -> edge_ok e = true.
Proof.
  unfold valid_edge. intros H.
  apply andb_prop in H. destruct H as [H Hlabel].
  apply andb_prop in H. destruct H as [Hfrom Hto].
  apply has_str_inv in Hfrom. destruct Hfrom as (entries & t & -> & Hfrom).
  apply has_str_inv in Hto. destruct Hto as (entries' & h & Heq & Hto).
  injection Heq as <-.
  unfold edge_ok. unfold py_getitem. rewrite Hfrom, Hto.
  destruct (py_get (JDict entries) "label" (JStr "")) as [x | [| b | n | l | items | fs]];
    try discriminate Hlabel. reflexivity.
Qed.

Lemma forallb_impl {A : Type} (p q : A -> bool) (l : list A) :
  (forall x, p x = true -> q x = true) -> forallb p l = true -> forallb q l = true.
Proof.
  intros Hpq. rewrite !forallb_forall. auto.
Qed.

Lemma valid_graph_fields (g : json) :
  valid_graph g = true ->
  exists sls ns es,
    graph_swimlanes g = inr sls /\ graph_nodes g = inr ns /\ graph_edges g = inr es /\
    forallb valid_swimlane sls = true /\ forallb valid_node ns = true /\
    forallb valid_edge es = true /\ distinct (ids sls) = true.
Proof.
  unfold valid_graph, graph_swimlanes, graph_nodes, graph_edges. intros H.
  destruct g as [| b | n | s | items | entries]; try discriminate H.
  unfold py_get.
  destruct (lookup "swimlanes" entries) as [[| b | n | s | sls | fs] |]; try discriminate H.
  destruct (lookup "nodes" entries) as [[| b | n | s | ns | fs] |]; try discriminate H.
  destruct (lookup "edges" entries) as [[| b | n | s | es | fs] |]; try discriminate H.
  repeat (apply andb_prop in H; destruct H as [H ?]).
  exists sls, ns, es. cbn. auto 10.
Qed.

Lemma valid_graph_renderable (g : json) : valid_graph g = true -> renderable g = true.
Proof.
  intros H. apply valid_graph_fields in H.
  destruct H as (sls & ns & es & Hsls & Hns & Hes & Hl & Hn & He & _).
  unfold renderable. rewrite Hsls, Hns, Hes.
  rewrite (forallb_impl _ _ _ valid_swimlane_ok Hl).
  rewrite (forallb_impl _ _ _ (valid_node_ok sls) Hn).
  now rewrite (forallb_impl _ _ _ valid_edge_ok He).
Qed.

Lemma cluster_stmt_id (swimlane_nodes : pydict) (entry : nat * json) (s : statement) :
  cluster_stmt swimlane_nodes entry = inr s -> cluster_id s = swimlane_cluster (snd entry).
Proof.
  destruct entry as [idx sl]. intros H. apply cluster_stmt_inv in H.
  destruct H as (_ & k & nm & nodes & ss & a & Hk & Hnm & _ & _ & ->).
  cbn [snd cluster_id]. unfold swimlane_cluster. rewrite Hk.
  unfold cluster_name in Hnm. destruct (py_str k); [| discriminate Hnm].
  now injection Hnm as <-.
Qed.

Lemma map_snd_enumerate_from {A B : Type} (h : A -> B) (l : list A) (start : nat) :
  map (fun e => h (snd e)) (enumerate_from start l) = map h l.
Proof.
  revert start; induction l as [| x l IH]; intros start; simpl; [reflexivity |].
  now rewrite IH.
Qed.

(** The clusters of a rendered diagram are named after the swimlanes, one
    for each, in the order of the list. *)
Lemma rendered_clusters (g : json) (d : Digraph) (swimlanes : list json) :
  generate_bpmn_diagram g = inr d ->
  graph_swimlanes g = inr swimlanes ->
  map cluster_id (clusters d) = map swimlane_cluster swimlanes.
Proof.
  intros Hgen Hsls. apply generate_inr in Hgen.
  destruct Hgen as (sls & ns & es & declared & sn & cs & ess
                    & Hsls' & _ & _ & _ & Hcs & _ & Hess & Hd).
  rewrite Hsls in Hsls'. injection Hsls' as <-.
  destruct (rendered_parts _ _ _ _ _ _ Hcs Hess Hd) as [-> _].
  rewrite <- (map_snd_enumerate_from swimlane_cluster swimlanes 0).
  apply (map_result_map (cluster_stmt sn)); [| exact Hcs].
  intros x y. apply cluster_stmt_id.
Qed.

Lemma distinct_NoDup (l : list string) : distinct l = true -> NoDup l.
Proof.
  induction l as [| x l IH]; simpl; intros H; constructor.
  - apply andb_prop in H. destruct H as [H _]. apply negb_true_iff in H.
    intros Hin. assert (existsb (String.eqb x) l = true); [| congruence].
    apply existsb_exists. exists x. split; [assumption | apply String.eqb_refl].
  - apply andb_prop in H. now apply IH.
Qed.

Lemma valid_swimlane_clusters (swimlanes : list json) :
  forallb valid_swimlane swimlanes = true ->
  map swimlane_cluster swimlanes
  = map (fun s => Some (String.append "cluster_" s)) (ids swimlanes).
Proof.
  induction swimlanes as [| sl sls IH]; simpl; intros H; [reflexivity |].
  apply andb_prop in H. destruct H as [Hsl Hsls].
  unfold valid_swimlane in Hsl. apply andb_prop in Hsl. destruct Hsl as [Hid _].
  apply has_str_inv in Hid. destruct Hid as (entries & s & -> & Hid).
  unfold swimlane_cluster at 1, str_field, py_getitem. rewrite Hid. cbn [app map option_map py_str].
  now rewrite IH.
Qed.

(** C7. A graph that follows the schema renders: the call returns a diagram
    that is not empty and has one cluster for each entry of the swimlane
    list, named after the swimlane ids, in the order of the list, no two with
    the same name. *)
Theorem valid_graph_renders (g : json) (swimlanes : list json) :
  valid_graph g = true ->
  graph_swimlanes g = inr swimlanes ->
  exists d,
    generate_bpmn_diagram g = inr d /\
    body d <> [] /\
    List.length (clusters d) = List.length swimlanes /\
    map cluster_id (clusters d) = map swimlane_cluster swimlanes /\
    NoDup (map cluster_id (clusters d)).
Proof.
  intros Hvalid Hsls.
  destruct (renderable_renders g (valid_graph_renderable g Hvalid)) as [d Hd].
  exists d. split; [assumption |].
  pose proof (rendered_clusters g d swimlanes Hd Hsls) as Hnames.
  split; [| split; [| split]].
  - apply generate_inr in Hd.
    destruct Hd as (? & ? & ? & ? & ? & cs & ess & _ & _ & _ & _ & _ & _ & _ & ->).
    discriminate.
  - rewrite <- (length_map cluster_id), Hnames. apply length_map.
  - exact Hnames.
  - rewrite Hnames.
    apply valid_graph_fields in Hvalid.
    destruct Hvalid as (sls & ns & es & Hsls' & _ & _ & Hl & _ & _ & Hdistinct).
    rewrite Hsls in Hsls'. injection Hsls' as <-.
    rewrite (valid_swimlane_clusters _ Hl).
    apply Injective_map_NoDup; [| now apply distinct_NoDup].
    intros a b Hab. now injection Hab.
Qed.

Lemma valid_graph_renders_witness :
  exists d,
    generate_bpmn_diagram scenario = inr d /\
    body d <> [] /\
    List.length (clusters d) = 2 /\
    map cluster_id (clusters d) = [Some "cluster_customer"; Some "cluster_agent"] /\
    NoDup (map cluster_id (clusters d)).
Proof.
  exact (valid_graph_renders scenario
           [JDict [("id", JStr "customer"); ("label", JStr "Customer")];
            JDict [("id", JStr "agent"); ("label", JStr "Agent")]]
           eq_refl eq_refl).
Defined.

(** ** Edges *)

Lemma edge_stmt_valid (e : json) : valid_edge e = true -> edge_stmt e = inr (connector e).
Proof.
  unfold valid_edge. intros H.
  apply andb_prop in H. destruct H as [H Hlabel].
  apply andb_prop in H. destruct H as [Hfrom Hto].
  apply has_str_inv in Hfrom. destruct Hfrom as (entries & t & -> & Hfrom).
  apply has_str_inv in Hto. destruct Hto as (entries' & h & Heq & Hto).
  injection Heq as <-.
  unfold edge_stmt, connector, edge_label, field, str_field, py_getitem.
  rewrite Hfrom, Hto. cbn [bind ret].
  destruct (py_get (JDict entries) "label" (JStr "")) as [x | [| b | n | l | items | fs]];
    try discriminate Hlabel. reflexivity.
Qed.

Lemma map_result_valid_edges (es : list json) :
  forallb valid_edge es = true -> map_result edge_stmt es = inr (map connector es).
Proof.
  induction es as [| e es IH]; simpl; intros H; [reflexivity |].
  apply andb_prop in H. destruct H as [He Hes].
  now rewrite (edge_stmt_valid e He), (IH Hes).
Qed.

(** C3. Each entry of the edge list becomes one connector, from [from] to
    [to], with the label of the edge or the empty label, in the order of the
    list.  No edge makes the renderer raise, whatever node ids it names: the
    graph renders whenever it renders with its edges taken out, and the
    diagram is then the same with the connectors added. *)
Theorem edges_become_connectors (entries : list (string * json)) (es : list json)
  (d0 : Digraph) :
  graph_edges (JDict entries) = inr es ->
  forallb valid_edge es = true ->
  generate_bpmn_diagram (JDict (("edges", JList []) :: entries)) = inr d0 ->
  exists d,
    generate_bpmn_diagram (JDict entries) = inr d /\
    body d = body d0 ++ map connector es /\
    connectors d = map connector es /\
    List.length (connectors d) = List.length es.
Proof.
  intros Hedges Hvalid H0.
  apply generate_inr in H0.
  destruct H0 as (sls & ns & es0 & declared & sn & cs & ess0
                  & Hsls & Hd & Hns & Hg & Hcs & Hes0 & Hess0 & ->).
  cbn in Hes0. injection Hes0 as <-. cbn in Hess0. injection Hess0 as <-.
  pose proof (map_result_valid_edges es Hvalid) as Hess.
  exists (mkDigraph None (Some "BPMN Process Flow") (preamble ++ cs ++ map connector es)).
  split; [| split; [| split]].
  - rewrite generate_fields.
    change (graph_swimlanes (JDict entries))
      with (graph_swimlanes (JDict (("edges", JList []) :: entries))).
    change (graph_nodes (JDict entries))
      with (graph_nodes (JDict (("edges", JList []) :: entries))).
    rewrite Hsls, Hns. cbn [bind]. rewrite Hd. cbn [bind]. rewrite Hg. cbn [bind].
    rewrite Hcs. cbn [bind]. rewrite Hedges. cbn [bind].
    now rewrite Hess.
  - cbn [body]. now rewrite app_nil_r, <- app_assoc.
  - now destruct (rendered_parts sn (enumerate sls) es cs (map connector es) _
                    Hcs Hess eq_refl).
  - destruct (rendered_parts sn (enumerate sls) es cs (map connector es) _
                Hcs Hess eq_refl) as [_ ->].
    apply length_map.
Qed.

Lemma edges_become_connectors_witness :
  exists d,
    generate_bpmn_diagram (JDict a_dangling_graph) = inr d /\
    connectors d = [EdgeStmt "start" "nowhere" [("label", "Yes")];
                    EdgeStmt "gone" "start" [("label", "")]].
Proof.
  destruct (edges_become_connectors a_dangling_graph dangling_edges
              (rendered (JDict (("edges", JList []) :: a_dangling_graph)))
              eq_refl eq_refl eq_refl) as (d & Hd & _ & Hc & _).
  exists d. split; [exact Hd | exact Hc].
Defined.

(** ** Nodes of undeclared swimlanes *)

Lemma group_node_undeclared (n lane_ : json) (d : pydict) :
  py_get n "swimlane" (JStr "default") = inr lane_ ->
  hashable lane_ = true ->
  dict_find lane_ d = None ->
  group_node n d = inr d.
Proof.
  intros Hlane Hh Hfind. unfold group_node, dict_contains, py_hash.
  rewrite Hlane. cbn [bind]. rewrite Hh. cbn [bind ret]. now rewrite Hfind.
Qed.

(** The node loop passes over a node of an undeclared swimlane. *)
Lemma group_loop_skips (swimlanes ns1 ns2 : list json) (n lane_ : json)
  (declared : pydict) :
  for_each declare_swimlane swimlanes [] = inr declared ->
  py_get n "swimlane" (JStr "default") = inr lane_ ->
  hashable lane_ = true ->
  declares swimlanes lane_ = false ->
  for_each group_node (ns1 ++ n :: ns2) declared
  = for_each group_node (ns1 ++ ns2) declared.
Proof.
  intros Hd Hlane Hh Hundeclared.
  rewrite !for_each_app.
  destruct (for_each group_node ns1 declared) as [e | sn1] eqn:H1; [reflexivity |].
  cbn [bind for_each].
  rewrite (group_node_undeclared n lane_ sn1 Hlane Hh); [reflexivity |].
  rewrite (proj2 (group_loop _ _ _ H1) lane_), (proj2 (declare_loop _ _ _ Hd) lane_).
  now rewrite Hundeclared.
Qed.

(** C2. A node whose swimlane is not the id of any swimlane leaves no trace:
    the renderer gives for the graph what it gives for the graph with that
    node taken out of the node list, so no shape is added for the node and the
    node raises nothing, even when it has no id or label; when the rest of
    the graph is in order the call returns a diagram. *)
Theorem dropped_node_absent (entries : list (string * json))
  (swimlanes ns1 ns2 : list json) (n lane_ : json) :
  graph_nodes (JDict entries) = inr (ns1 ++ n :: ns2) ->
  graph_swimlanes (JDict entries) = inr swimlanes ->
  py_get n "swimlane" (JStr "default") = inr lane_ ->
  hashable lane_ = true ->
  declares swimlanes lane_ = false ->
  generate_bpmn_diagram (JDict entries)
  = generate_bpmn_diagram (JDict (("nodes", JList (ns1 ++ ns2)) :: entries)) /\
  (renderable (JDict (("nodes", JList (ns1 ++ ns2)) :: entries)) = true ->
   exists d, generate_bpmn_diagram (JDict entries) = inr d).
Proof.
  intros Hnodes Hsls Hlane Hh Hundeclared.
  assert (Heq : generate_bpmn_diagram (JDict entries)
                = generate_bpmn_diagram (JDict (("nodes", JList (ns1 ++ ns2)) :: entries))).
  { rewrite !generate_fields.
    change (graph_swimlanes (JDict (("nodes", JList (ns1 ++ ns2)) :: entries)))
      with (graph_swimlanes (JDict entries)).
    change (graph_edges (JDict (("nodes", JList (ns1 ++ ns2)) :: entries)))
      with (graph_edges (JDict entries)).
    rewrite Hsls. cbn [bind].
    destruct (for_each declare_swimlane swimlanes []) as [e | declared] eqn:Hd;
      [reflexivity |].
    cbn [bind].
    rewrite Hnodes.
    change (graph_nodes (JDict (("nodes", JList (ns1 ++ ns2)) :: entries)))
      with (@inr exn _ (ns1 ++ ns2)).
    cbn [bind].
    now rewrite (group_loop_skips swimlanes ns1 ns2 n lane_ declared
                   Hd Hlane Hh Hundeclared). }
  split; [exact Heq |].
  intros Hrest. rewrite Heq. now apply renderable_renders.
Qed.

Lemma dropped_node_absent_witness :
  exists d,
    generate_bpmn_diagram (JDict scenario_with_stray) = inr d /\
    generate_bpmn_diagram (JDict (("nodes", JList scenario_nodes) :: scenario_with_stray))
    = inr d.
Proof.
  destruct (dropped_node_absent scenario_with_stray
              [lane "customer" "Customer"; lane "agent" "Agent"]
              [JDict [("id", JStr "start"); ("label", JStr "Submit");
                      ("type", JStr "start_event"); ("swimlane", JStr "customer")]]
              [JDict [("id", JStr "review"); ("label", JStr "Review");
                      ("type", JStr "gateway"); ("swimlane", JStr "agent")]]
              a_stray_node (JStr "nobody")
              eq_refl eq_refl eq_refl eq_refl eq_refl) as [Heq Hreturns].
  destruct (Hreturns eq_refl) as [d Hd].
  exists d. split; [exact Hd |]. rewrite <- Hd. symmetry. exact Heq.
Defined.

(** ** Runs of [main] *)

Lemma accepted_both_keys (entries : list (string * json)) (dj xml : json) :
  lookup "diagram_json" entries = Some dj ->
  lookup "bpmn_xml" entries = Some xml ->
  accepted (JDict entries) = inr true.
Proof.
  intros Hdj Hxml. unfold accepted, py_contains.
  destruct entries as [| kv entries]; [discriminate Hdj |].
  cbn [truthy bind ret]. now rewrite Hdj, Hxml.
Qed.

(** X1. A response object with both keys whose graph renders replaces the
    whole session: the graph and the XML are stored as the response has
    them, the diagram is the rendering of the graph, the status is true, the
    success message is shown and the page reruns.  Nothing of the earlier
    session is kept.  When the XML is a string the download button then
    offers it unchanged and the page shows the new diagram; when it is any
    other value the download button raises. *)
Theorem successful_generate_replaces_session (st : session_state)
  (user_input : text) (entries : list (string * json)) (dj xml : json)
  (dot : Digraph) :
  (20 <= List.length (py_strip user_input))%nat ->
  lookup "diagram_json" entries = Some dj ->
  lookup "bpmn_xml" entries = Some xml ->
  generate_bpmn_diagram dj = inr dot ->
  let r := main st true user_input true (ValidJson (JDict entries)) in
  r = mkRun (mkSession true dj xml (Some dot))
            [st_success GeneratedSuccessfully; st_rerun] None /\
  (forall data, xml = JStr data ->
     sidebar (session r) = download_offered data /\
     display (session r) = inr (Some (dot, dj, xml))) /\
  ((forall data, xml <> JStr data) -> sidebar (session r) = download_raises).
Proof.
  intros Hlen Hdj Hxml Hdot r.
  assert (Hr : r = mkRun (mkSession true dj xml (Some dot))
                         [st_success GeneratedSuccessfully; st_rerun] None).
  { subst r. unfold main. cbn [negb]. apply Nat.ltb_ge in Hlen. rewrite Hlen.
    cbn [get_structured_process_flow negb].
    rewrite (accepted_both_keys entries dj xml Hdj Hxml).
    unfold py_getitem. rewrite Hdj, Hxml. unfold ret.
    cbv beta iota zeta delta [set_diagram_data set_bpmn_xml set_graph_obj
      set_diagram_generated diagram_data bpmn_xml diagram_generated graph_obj].
    now rewrite Hdot. }
  rewrite Hr. split; [reflexivity |]. split.
  - intros data ->. split; reflexivity.
  - intros Hother. unfold sidebar. cbn [session diagram_generated bpmn_xml].
    destruct xml; try reflexivity. now elim (Hother s).
Qed.

Lemma successful_generate_replaces_session_witness :
  main a_generated_session true a_description true
    (ValidJson (JDict [("bpmn_xml", JStr "<lanes/>"); ("diagram_json", six_lanes)]))
  = mkRun (mkSession true six_lanes (JStr "<lanes/>") (Some (rendered six_lanes)))
          [st_success GeneratedSuccessfully; st_rerun] None.
Proof.
  refine (proj1 (successful_generate_replaces_session a_generated_session a_description
                   [("bpmn_xml", JStr "<lanes/>"); ("diagram_json", six_lanes)]
                   six_lanes (JStr "<lanes/>") (rendered six_lanes)
                   _ eq_refl eq_refl eq_refl)).
  vm_compute. repeat constructor.
Defined.

(** X2. A response object with both keys whose graph makes the renderer
    raise ends the run with that exception after the graph and the XML have
    been stored: the session holds the new graph and the new XML beside the
    earlier diagram and the earlier status, and no message is shown.  In a
    session that had a diagram, when the new XML is a string, the page goes
    on offering a download, now of the new XML, and showing the earlier
    diagram with the new graph and XML under it. *)
Theorem failed_render_overwrites_pair (st : session_state) (user_input : text)
  (entries : list (string * json)) (dj xml : json) (e : exn) :
  (20 <= List.length (py_strip user_input))%nat ->
  lookup "diagram_json" entries = Some dj ->
  lookup "bpmn_xml" entries = Some xml ->
  generate_bpmn_diagram dj = inl e ->
  let r := main st true user_input true (ValidJson (JDict entries)) in
  r = mkRun (mkSession (diagram_generated st) dj xml (graph_obj st)) [] (Some e) /\
  (forall dot data,
     diagram_generated st = true -> graph_obj st = Some dot -> xml = JStr data ->
     sidebar (session r) = download_offered data /\
     display (session r) = inr (Some (dot, dj, xml))).
Proof.
  intros Hlen Hdj Hxml He r.
  assert (Hr : r = mkRun (mkSession (diagram_generated st) dj xml (graph_obj st))
                         [] (Some e)).
  { subst r. unfold main. cbn [negb]. apply Nat.ltb_ge in Hlen. rewrite Hlen.
    cbn [get_structured_process_flow negb].
    rewrite (accepted_both_keys entries dj xml Hdj Hxml).
    unfold py_getitem. rewrite Hdj, Hxml. unfold ret.
    cbv beta iota zeta delta [set_diagram_data set_bpmn_xml set_graph_obj
      set_diagram_generated diagram_data bpmn_xml diagram_generated graph_obj].
    now rewrite He. }
  rewrite Hr. split; [reflexivity |].
  intros dot data Hgen Hobj ->. unfold sidebar, display.
  cbn [session diagram_generated graph_obj diagram_data bpmn_xml].
  now rewrite Hgen, Hobj.
Qed.

Lemma failed_render_overwrites_pair_witness :
  let r := main a_generated_session true a_description true
             (ValidJson (JDict a_broken_response)) in
  raised r = Some (KeyError "id") /\
  diagram_data (session r) = a_graph_without_id /\
  bpmn_xml (session r) = JStr "<broken/>" /\
  graph_obj (session r) = Some (rendered scenario) /\
  diagram_generated (session r) = true.
Proof.
  intros r.
  assert (Hr : r = mkRun (mkSession (diagram_generated a_generated_session)
                            a_graph_without_id (JStr "<broken/>")
                            (graph_obj a_generated_session)) [] (Some (KeyError "id"))).
  { refine (proj1 (failed_render_overwrites_pair a_generated_session a_description
                     a_broken_response a_graph_without_id (JStr "<broken/>")
                     (KeyError "id") _ eq_refl eq_refl eq_refl)).
    vm_compute. repeat constructor. }
  rewrite Hr. repeat split.
Defined.

Lemma lstrip_length (s : text) : (List.length (lstrip s) <= List.length s)%nat.
Proof.
  induction s as [| c s IH]; simpl; [lia |].
  destruct (is_space c); simpl; lia.
Qed.

Lemma rstrip_length (s : text) : (List.length (rstrip s) <= List.length s)%nat.
Proof.
  induction s as [| c s IH]; simpl; [lia |].
  destruct (rstrip s) as [| c' r]; [destruct (is_space c) |]; simpl in *; lia.
Qed.

Lemma py_strip_length (s : text) : (List.length (py_strip s) <= List.length s)%nat.
Proof.
  unfold py_strip. pose proof (rstrip_length (lstrip s)). pose proof (lstrip_length s). lia.
Qed.

(** X3. A description of fewer than 20 characters is refused whatever it
    holds, since stripping never lengthens it: the run shows the warning,
    leaves the session as it was and does not look at the client or at the
    endpoint. *)
Theorem short_description_refused (st : session_state) (user_input : text)
  (client : bool) (reply : completion) :
  (List.length user_input < 20)%nat ->
  main st true user_input client reply = mkRun st [st_warning DescriptionTooShort] None.
Proof.
  intros Hlen. unfold main. cbn [negb].
  assert (H : (List.length (py_strip user_input) <? 20)%nat = true)
    by (apply Nat.ltb_lt; pose proof (py_strip_length user_input); lia).
  now rewrite H.
Qed.

Lemma short_description_refused_witness :
  main a_generated_session true a_short_description true (ValidJson a_response)
  = mkRun a_generated_session [st_warning DescriptionTooShort] None.
Proof.
  refine (short_description_refused a_generated_session a_short_description true
            (ValidJson a_response) _).
  vm_compute. repeat constructor.
Defined.

Lemma accepted_dict_inv (entries : list (string * json)) :
  accepted (JDict entries) = inr true ->
  exists dj xml, lookup "diagram_json" entries = Some dj /\
                 lookup "bpmn_xml" entries = Some xml.
Proof.
  unfold accepted, py_contains. destruct (truthy (JDict entries)); [| discriminate].
  cbn [bind ret].
  destruct (lookup "diagram_json" entries) as [dj |]; [| discriminate].
  destruct (lookup "bpmn_xml" entries) as [xml |]; [| discriminate].
  eauto.
Qed.

(** The sessions one run of [main] can leave. *)
Lemma main_session_cases (st : session_state) (generate_button : bool)
  (user_input : text) (client : bool) (reply : completion) :
  let r := main st generate_button user_input client reply in
  session r = st \/
  (session r = set_diagram_generated false st /\ raised r = None) \/
  (exists dj xml e,
      session r = mkSession (diagram_generated st) dj xml (graph_obj st) /\
      raised r = Some e) \/
  (exists dj xml dot,
      generate_bpmn_diagram dj = inr dot /\
      session r = mkSession true dj xml (Some dot) /\ raised r = None).
Proof.
  unfold main.
  destruct generate_button; cbn [negb]; [| now left].
  destruct (List.length (py_strip user_input) <? 20)%nat; [now left |].
  destruct (get_structured_process_flow client reply user_input) as [calls v].
  destruct (accepted v) as [e | [|]] eqn:Hacc; [now left | | right; left; now split].
  destruct v as [| b | n | s | items | entries]; try (now left).
  destruct (accepted_dict_inv entries Hacc) as (dj & xml & Hdj & Hxml).
  unfold py_getitem. rewrite Hdj, Hxml. unfold ret.
  cbv beta iota zeta delta [set_diagram_data set_bpmn_xml set_graph_obj
    set_diagram_generated diagram_data bpmn_xml diagram_generated graph_obj].
  destruct (generate_bpmn_diagram dj) as [e | dot] eqn:Hdot.
  - right; right; left. exists dj, xml, e. now split.
  - right; right; right. exists dj, xml, dot. repeat split. exact Hdot.
Qed.

(** X4. Through any sequence of runs that end without an exception, the
    session stays consistent: whenever the status says a diagram was
    generated, the stored diagram is the rendering of the stored graph. *)
Theorem quiet_runs_keep_session_consistent (st : session_state) :
  reachable_quietly st -> consistent st.
Proof.
  induction 1 as [| st b input client reply Hreach IH Hquiet].
  - intros H. discriminate H.
  - pose proof (main_session_cases st b input client reply) as Hcases.
    cbv zeta in Hcases.
    destruct Hcases as [-> | [[-> _] | [(dj & xml & e & _ & He) | (dj & xml & dot & Hdot & -> & _)]]].
    + exact IH.
    + intros H. discriminate H.
    + rewrite He in Hquiet. discriminate Hquiet.
    + intros _. exists dot. split; [reflexivity | exact Hdot].
Qed.

Lemma quiet_runs_keep_session_consistent_witness :
  exists dot, graph_obj a_generated_session = Some dot /\
              generate_bpmn_diagram (diagram_data a_generated_session) = inr dot.
Proof.
  refine (quiet_runs_keep_session_consistent a_generated_session _ eq_refl).
  exact (quiet_run initial_session true a_description true (ValidJson a_response)
           quiet_initial eq_refl).
Defined.

(** X5. In every session a browser tab can reach, through runs that raised
    or not, a true status comes with a stored diagram: the last block of
    [main] never asks [None] for its [source], and shows something exactly
    when the status is true. *)
Theorem display_never_raises (st : session_state) :
  reachable st ->
  exists page, display st = inr page /\
               (diagram_generated st = true <-> page <> None).
Proof.
  intros Hreach.
  assert (Hinv : diagram_generated st = true -> exists dot, graph_obj st = Some dot).
  { induction Hreach as [| st b input client reply Hreach IH].
    - intros H. discriminate H.
    - pose proof (main_session_cases st b input client reply) as Hcases.
      cbv zeta in Hcases.
      destruct Hcases as [-> | [[-> _] | [(dj & xml & e & -> & _) | (dj & xml & dot & _ & -> & _)]]].
      + exact IH.
      + intros H. discriminate H.
      + exact IH.
      + intros _. now exists dot. }
  unfold display. destruct (diagram_generated st).
  - destruct (Hinv eq_refl) as [dot ->]. eexists. split; [reflexivity |].
    split; [intros _; discriminate | reflexivity].
  - eexists. split; [reflexivity |]. split; [discriminate | intros H; now elim H].
Qed.

Lemma display_never_raises_witness :
  exists page,
    display (session (main a_generated_session true a_description true
                        (ValidJson (JDict a_broken_response)))) = inr page.
Proof.
  destruct (display_never_raises
              (session (main a_generated_session true a_description true
                          (ValidJson (JDict a_broken_response)))))
    as (page & Hpage & _).
  - apply reach_run.
    exact (reach_run initial_session true a_description true (ValidJson a_response)
             reach_initial).
  - exists page. exact Hpage.
Defined.

(** ** The layout of a rendered diagram *)

(** X6. A rendered diagram has no name, the comment of the renderer, and a
    body made of the three global attribute statements, then the clusters,
    then the connectors: every connector comes after every cluster, and
    nothing else stands at the top level. *)
Theorem rendered_layout (g : json) (d : Digraph) :
  generate_bpmn_diagram g = inr d ->
  name d = None /\
  comment d = Some "BPMN Process Flow" /\
  body d = preamble ++ clusters d ++ connectors d.
Proof.
  intros H. apply generate_inr in H.
  destruct H as (sls & ns & es & declared & sn & cs & ess
                 & _ & _ & _ & _ & Hcs & _ & Hess & Hd).
  destruct (rendered_parts _ _ _ _ _ _ Hcs Hess Hd) as [-> ->].
  subst d. repeat split.
Qed.

Lemma rendered_layout_witness :
  body (rendered scenario)
  = preamble ++ clusters (rendered scenario) ++ connectors (rendered scenario).
Proof.
  exact (proj2 (proj2 (rendered_layout scenario (rendered scenario) eq_refl))).
Defined.

Lemma map_result_Forall2 {A B : Type} (f : A -> result B) (l0 l : list A) (ys : list B) :
  (forall x, In x l -> In x l0) ->
  map_result f l = inr ys ->
  Forall2 (fun x y => In x l0 /\ f x = inr y) l ys.
Proof.
  revert ys; induction l as [| x l IH]; intros ys Hsub H; simpl in H.
  - injection H as <-. constructor.
  - inv_bind H. inv_bind H. injection H as <-. constructor.
    + split; [apply Hsub; now left | assumption].
    + apply IH; [intros x' Hx'; apply Hsub; now right | assumption].
Qed.

Lemma Forall2_enumerate_from {A B : Type} (R : nat * A -> B -> Prop) (l : list A)
  (ys : list B) (start : nat) :
  Forall2 R (enumerate_from start l) ys ->
  Forall2 (fun x y => exists i, R (i, x) y) l ys.
Proof.
  revert ys start; induction l as [| x l IH]; intros ys start H; simpl in H;
    inversion H; subst; constructor; eauto.
Qed.

Lemma Forall2_impl {A B : Type} (R S : A -> B -> Prop) (l : list A) (ys : list B) :
  (forall x y, R x y -> S x y) -> Forall2 R l ys -> Forall2 S l ys.
Proof.
  intros HRS H; induction H; constructor; auto.
Qed.

Lemma Forall2_nth_error {A B : Type} (R : A -> B -> Prop) (l : list A) (ys : list B) :
  Forall2 R l ys ->
  forall i x y, nth_error l i = Some x -> nth_error ys i = Some y -> R x y.
Proof.
  induction 1 as [| x0 y0 l ys Hxy _ IH]; intros i x y Hx Hy.
  - destruct i; discriminate Hx.
  - destruct i as [| i]; simpl in Hx, Hy.
    + injection Hx as <-. injection Hy as <-. exact Hxy.
    + eapply IH; eassumption.
Qed.

(** The clusters of a rendered diagram, swimlane by swimlane: the name, the
    label, the fill colour, and the statements of the nodes of the swimlane. *)
Lemma rendered_cluster_bodies (g : json) (d : Digraph) (swimlanes nodes : list json) :
  generate_bpmn_diagram g = inr d ->
  graph_swimlanes g = inr swimlanes ->
  graph_nodes g = inr nodes ->
  Forall2 (fun sl c =>
             exists idx k label nm fill a ss,
               py_getitem sl "id" = inr k /\
               py_getitem sl "label" = inr label /\
               list_index colors (idx mod List.length colors) = inr fill /\
               a_list JNull
                 [("label", label); ("style", JStr "filled"); ("color", JStr "#666666");
                  ("fillcolor", JStr fill); ("fontsize", JStr "14");
                  ("fontname", JStr "Arial Bold")] = inr a /\
               map_result node_stmt (lane_nodes k nodes) = inr ss /\
               c = SubgraphStmt nm (AttrStmt None a :: ss))
          swimlanes (clusters d).
Proof.
  intros Hgen Hsls Hns. apply generate_inr in Hgen.
  destruct Hgen as (sls & ns & es & declared & sn & cs & ess
                    & Hsls' & Hd & Hns' & Hg & Hcs & _ & Hess & Hdot).
  rewrite Hsls in Hsls'. injection Hsls' as <-.
  rewrite Hns in Hns'. injection Hns' as <-.
  destruct (rendered_parts _ _ _ _ _ _ Hcs Hess Hdot) as [-> _].
  apply (map_result_Forall2 _ (enumerate swimlanes)) in Hcs; [| auto].
  apply Forall2_enumerate_from in Hcs.
  revert Hcs. apply Forall2_impl. intros sl c (idx & Hin & Hc).
  apply enumerate_from_In in Hin.
  unfold cluster_stmt in Hc. cbn [fst snd] in Hc.
  inv_bind Hc. rename a into k, E into Hk.
  inv_bind Hc. rename a into nm.
  inv_bind Hc. rename a into label, E0 into Hlabel.
  inv_bind Hc. rename a into fill, E0 into Hfill.
  inv_bind Hc. rename a into attrs, E0 into Hattrs.
  inv_bind Hc. rewrite Hk in E0. injection E0 as <-.
  inv_bind Hc. rename a into lane_, E0 into Hget.
  inv_bind Hc. rename a into ss, E0 into Hss.
  injection Hc as <-.
  assert (Hh : hashable k = true)
    by (unfold dict_get, py_hash in Hget; destruct (hashable k);
        [reflexivity | discriminate Hget]).
  rewrite (dict_get_grouped _ _ _ _ k Hd Hg Hh),
    (declares_own_id _ _ _ Hin Hk Hh) in Hget.
  injection Hget as <-.
  exists idx, k, label, nm, fill, attrs, ss. auto 10.
Qed.

Lemma node_stmt_name (node : json) (s : statement) :
  node_stmt node = inr s -> exists a, s = NodeStmt (field "id" node) a.
Proof.
  unfold node_stmt. intros H.
  inv_bind H. inv_bind H. rename a0 into id, E0 into Hid.
  inv_bind H. inv_bind H. rename a1 into n, E1 into Hn.
  inv_bind H. injection H as <-.
  destruct id; try discriminate Hn. injection Hn as <-.
  unfold field, str_field. rewrite Hid. eauto.
Qed.

Lemma node_stmts_names (nodes : list json) (ss : list statement) :
  map_result node_stmt nodes = inr ss -> node_names ss = map (field "id") nodes.
Proof.
  revert ss; induction nodes as [| n ns IH]; intros ss H; simpl in H.
  - now injection H as <-.
  - inv_bind H. inv_bind H. injection H as <-.
    destruct (node_stmt_name _ _ E) as [attrs ->].
    cbn [node_names flat_map app map]. f_equal. exact (IH _ E0).
Qed.

(** X7. In a rendered diagram the cluster of a swimlane holds, after its
    attribute statement, one node statement for each node whose swimlane
    (or ["default"], when the node names none) equals the id of the swimlane,
    in the order of the node list, and no other node statement. *)
Theorem cluster_holds_its_nodes (g : json) (d : Digraph) (swimlanes nodes : list json) :
  generate_bpmn_diagram g = inr d ->
  graph_swimlanes g = inr swimlanes ->
  graph_nodes g = inr nodes ->
  Forall2 (fun sl c =>
             exists k, py_getitem sl "id" = inr k /\
                       node_names (cluster_body c)
                       = map (field "id") (lane_nodes k nodes))
          swimlanes (clusters d).
Proof.
  intros Hgen Hsls Hns.
  pose proof (rendered_cluster_bodies g d swimlanes nodes Hgen Hsls Hns) as H.
  revert H. apply Forall2_impl.
  intros sl c (idx & k & label & nm & fill & a & ss & Hk & _ & _ & _ & Hss & ->).
  exists k. split; [assumption |].
  cbn [cluster_body]. change (node_names (AttrStmt None a :: ss)) with (node_names ss).
  now apply node_stmts_names.
Qed.

Lemma cluster_holds_its_nodes_witness :
  Forall2 (fun sl c =>
             exists k, py_getitem sl "id" = inr k /\
                       node_names (cluster_body c)
                       = map (field "id") (lane_nodes k (items (graph_nodes scenario))))
          (items (graph_swimlanes scenario)) (clusters (rendered scenario)).
Proof.
  exact (cluster_holds_its_nodes scenario (rendered scenario)
           (items (graph_swimlanes scenario)) (items (graph_nodes scenario))
           eq_refl eq_refl eq_refl).
Defined.

Lemma lane_nodes_eqb (k k' : json) (nodes : list json) :
  py_key_eqb k k' = true -> lane_nodes k nodes = lane_nodes k' nodes.
Proof.
  intros H. unfold lane_nodes. apply filter_ext. intros n. unfold in_lane.
  destruct (py_get n "swimlane" (JStr "default")) as [e | v]; [reflexivity |].
  rewrite (py_key_eqb_sym v k), (py_key_eqb_sym v k'). now apply py_key_eqb_trans.
Qed.

(** X8. A swimlane id that occurs in two entries of the swimlane list gives
    two clusters with the same node statements: the nodes of that swimlane
    are drawn in both. *)
Theorem duplicate_swimlane_ids_repeat_nodes (g : json) (d : Digraph)
  (swimlanes nodes : list json) (i j : nat) (sl sl' k k' : json) (c c' : statement) :
  generate_bpmn_diagram g = inr d ->
  graph_swimlanes g = inr swimlanes ->
  graph_nodes g = inr nodes ->
  nth_error swimlanes i = Some sl -> nth_error swimlanes j = Some sl' ->
  py_getitem sl "id" = inr k -> py_getitem sl' "id" = inr k' ->
  py_key_eqb k k' = true ->
  nth_error (clusters d) i = Some c -> nth_error (clusters d) j = Some c' ->
  tl (cluster_body c) = tl (cluster_body c') /\
  node_names (cluster_body c) = map (field "id") (lane_nodes k nodes).
Proof.
  intros Hgen Hsls Hns Hi Hj Hk Hk' Heq Hc Hc'.
  pose proof (rendered_cluster_bodies g d swimlanes nodes Hgen Hsls Hns) as H.
  destruct (Forall2_nth_error _ _ _ H i sl c Hi Hc)
    as (idx & k1 & label & nm & fill & a & ss & Hk1 & _ & _ & _ & Hss & ->).
  destruct (Forall2_nth_error _ _ _ H j sl' c' Hj Hc')
    as (idx' & k2 & label' & nm' & fill' & a' & ss' & Hk2 & _ & _ & _ & Hss' & ->).
  rewrite Hk in Hk1. injection Hk1 as <-. rewrite Hk' in Hk2. injection Hk2 as <-.
  cbn [cluster_body tl]. split.
  - rewrite (lane_nodes_eqb k k' nodes Heq) in Hss. congruence.
  - change (node_names (AttrStmt None a :: ss)) with (node_names ss).
    now apply node_stmts_names.
Qed.

Lemma duplicate_swimlane_ids_repeat_nodes_witness :
  tl (cluster_body (cluster_at (rendered twin_lanes) 0))
  = tl (cluster_body (cluster_at (rendered twin_lanes) 1)) /\
  node_names (cluster_body (cluster_at (rendered twin_lanes) 0)) = ["review"; "decide"].
Proof.
  exact (duplicate_swimlane_ids_repeat_nodes twin_lanes (rendered twin_lanes)
           (items (graph_swimlanes twin_lanes)) (items (graph_nodes twin_lanes))
           0 1 (lane "agent" "Agent") (lane "agent" "Agent again")
           (JStr "agent") (JStr "agent")
           (cluster_at (rendered twin_lanes) 0) (cluster_at (rendered twin_lanes) 1)
           eq_refl eq_refl eq_refl eq_refl eq_refl eq_refl eq_refl eq_refl
           eq_refl eq_refl).
Defined.

Lemma filter_or_length {A : Type} (p q : A -> bool) (l : list A) :
  (forall x, p x = true -> q x = false) ->
  List.length (filter (fun x => p x || q x) l)
  = List.length (filter p l) + List.length (filter q l).
Proof.
  intros Hpq. induction l as [| x l IH]; simpl; [reflexivity |].
  destruct (p x) eqn:Hp; simpl.
  - rewrite (Hpq x Hp). simpl. now rewrite IH.
  - destruct (q x); simpl; rewrite IH; lia.
Qed.

Lemma in_lane_two_keys (k k' n : json) :
  in_lane k n = true -> in_lane k' n = true -> py_key_eqb k k' = true.
Proof.
  unfold in_lane. destruct (py_get n "swimlane" (JStr "default")) as [e | v];
    [discriminate |].
  intros Hk Hk'. rewrite py_key_eqb_sym in Hk.
  now rewrite (py_key_eqb_trans _ _ k' Hk).
Qed.

(** Distinct keys split the nodes: the lists of the keys together are as
    long as the list of the nodes that are in one of them. *)
Lemma lanes_partition (f : json -> string) (ks nodes : list json) :
  keys_distinct ks = true ->
  List.length (flat_map (fun k => map f (lane_nodes k nodes)) ks)
  = List.length (filter (fun n => existsb (fun k => in_lane k n) ks) nodes).
Proof.
  induction ks as [| k ks IH]; intros Hd; simpl.
  - induction nodes; simpl; auto.
  - simpl in Hd. apply andb_prop in Hd. destruct Hd as [Hk Hks].
    rewrite length_app, length_map, (IH Hks). symmetry.
    apply (filter_or_length (in_lane k)).
    intros n Hn. apply negb_true_iff in Hk.
    destruct (existsb (fun k0 => in_lane k0 n) ks) eqn:E; [| reflexivity].
    apply existsb_exists in E. destruct E as (k' & Hin & Hn').
    assert (existsb (py_key_eqb k) ks = true); [| congruence].
    apply existsb_exists. exists k'. split; [assumption |].
    exact (in_lane_two_keys k k' n Hn Hn').
Qed.

Lemma drawn_keys (swimlanes : list json) (n : json) :
  drawn swimlanes n = existsb (fun k => in_lane k n) (swimlane_keys swimlanes).
Proof.
  unfold drawn, in_lane, declares, swimlane_keys.
  destruct (py_get n "swimlane" (JStr "default")) as [e | v].
  - symmetry. induction (flat_map _ swimlanes); simpl; auto.
  - induction swimlanes as [| sl sls IH]; simpl; [reflexivity |].
    rewrite existsb_app, IH.
    destruct (py_getitem sl "id") as [e | k]; simpl; [reflexivity |].
    now rewrite orb_false_r.
Qed.

Lemma rendered_node_names (swimlanes nodes : list json) (cs : list statement) :
  Forall2 (fun sl c =>
             exists k, py_getitem sl "id" = inr k /\
                       node_names (cluster_body c)
                       = map (field "id") (lane_nodes k nodes)) swimlanes cs ->
  flat_map (fun c => node_names (cluster_body c)) cs
  = flat_map (fun k => map (field "id") (lane_nodes k nodes)) (swimlane_keys swimlanes).
Proof.
  induction 1 as [| sl c sls cs (k & Hk & Hc) _ IH]; simpl; [reflexivity |].
  rewrite Hc, IH. unfold swimlane_keys at 2. simpl. rewrite Hk. simpl.
  reflexivity.
Qed.

(** X9. When no two swimlanes have the same id, a rendered diagram has as
    many node statements as the graph has nodes of declared swimlanes: each
    such node is drawn once, and the nodes of undeclared swimlanes are not
    drawn. *)
Theorem declared_nodes_drawn_once (g : json) (d : Digraph)
  (swimlanes nodes : list json) :
  generate_bpmn_diagram g = inr d ->
  graph_swimlanes g = inr swimlanes ->
  graph_nodes g = inr nodes ->
  keys_distinct (swimlane_keys swimlanes) = true ->
  List.length (flat_map (fun c => node_names (cluster_body c)) (clusters d))
  = List.length (filter (drawn swimlanes) nodes).
Proof.
  intros Hgen Hsls Hns Hdistinct.
  pose proof (rendered_cluster_bodies g d swimlanes nodes Hgen Hsls Hns) as H.
  assert (Hnames : Forall2 (fun sl c =>
             exists k, py_getitem sl "id" = inr k /\
                       node_names (cluster_body c)
                       = map (field "id") (lane_nodes k nodes)) swimlanes (clusters d)).
  { revert H. apply Forall2_impl.
    intros sl c (idx & k & label & nm & fill & a & ss & Hk & _ & _ & _ & Hss & ->).
    exists k. split; [assumption |]. cbn [cluster_body].
    change (node_names (AttrStmt None a :: ss)) with (node_names ss).
    now apply node_stmts_names. }
  rewrite (rendered_node_names _ _ _ Hnames), (lanes_partition _ _ _ Hdistinct).
  f_equal. apply filter_ext. intros n. symmetry. apply drawn_keys.
Qed.

Lemma declared_nodes_drawn_once_witness :
  List.length (flat_map (fun c => node_names (cluster_body c))
                 (clusters (rendered (JDict scenario_with_stray))))
  = List.length (filter (drawn (items (graph_swimlanes (JDict scenario_with_stray))))
                   (items (graph_nodes (JDict scenario_with_stray)))).
Proof.
  exact (declared_nodes_drawn_once (JDict scenario_with_stray)
           (rendered (JDict scenario_with_stray))
           (items (graph_swimlanes (JDict scenario_with_stray)))
           (items (graph_nodes (JDict scenario_with_stray)))
           eq_refl eq_refl eq_refl eq_refl).
Defined.

(** X10. A node that names no swimlane belongs to the swimlane whose id is
    ["default"]: when the graph has such a swimlane, the node is drawn in its
    cluster. *)
Theorem node_without_swimlane_is_in_default (g : json) (d : Digraph)
  (swimlanes nodes : list json) (i : nat) (lane_ : json) (cl : statement)
  (fields : list (string * json)) :
  generate_bpmn_diagram g = inr d ->
  graph_swimlanes g = inr swimlanes ->
  graph_nodes g = inr nodes ->
  nth_error swimlanes i = Some lane_ ->
  py_getitem lane_ "id" = inr (JStr "default") ->
  nth_error (clusters d) i = Some cl ->
  In (JDict fields) nodes ->
  lookup "swimlane" fields = None ->
  In (field "id" (JDict fields)) (node_names (cluster_body cl)).
Proof.
  intros Hgen Hsls Hns Hi Hid Hc Hin Hnone.
  pose proof (rendered_cluster_bodies g d swimlanes nodes Hgen Hsls Hns) as H.
  destruct (Forall2_nth_error _ _ _ H i lane_ cl Hi Hc)
    as (idx & k & label & nm & fill & a & ss & Hk & _ & _ & _ & Hss & ->).
  rewrite Hid in Hk. injection Hk as <-.
  cbn [cluster_body]. change (node_names (AttrStmt None a :: ss)) with (node_names ss).
  rewrite (node_stmts_names _ _ Hss). apply in_map. apply filter_In.
  split; [assumption |]. unfold in_lane, py_get. now rewrite Hnone.
Qed.

Lemma node_without_swimlane_is_in_default_witness :
  In "stray" (node_names (cluster_body (cluster_at (rendered a_default_lane_graph) 1))).
Proof.
  refine (node_without_swimlane_is_in_default a_default_lane_graph
            (rendered a_default_lane_graph)
            (items (graph_swimlanes a_default_lane_graph))
            (items (graph_nodes a_default_lane_graph))
            1 (lane "default" "Others") (cluster_at (rendered a_default_lane_graph) 1)
            [("id", JStr "stray"); ("label", JStr "Stray")]
            eq_refl eq_refl eq_refl eq_refl eq_refl eq_refl _ eq_refl).
  right. left. reflexivity.
Defined.

Lemma Forall2_and {A B : Type} (R S : A -> B -> Prop) (l : list A) (ys : list B) :
  Forall2 R l ys -> Forall2 S l ys -> Forall2 (fun x y => R x y /\ S x y) l ys.
Proof.
  intros HR; induction HR; intros HS; inversion HS; subst; constructor; auto.
Qed.

Lemma map_eq_Forall2 {A B C : Type} (f : B -> C) (h : A -> C) (l : list A) (ys : list B) :
  map f ys = map h l -> Forall2 (fun x y => f y = h x) l ys.
Proof.
  revert ys; induction l as [| x l IH]; intros [| y ys] H; simpl in H;
    try discriminate H; constructor.
  - now injection H.
  - apply IH. now injection H.
Qed.

(** X11. The cluster of a swimlane whose label is a string declares that
    label, the fixed style and border colour, a palette colour as fill, and
    the fixed font, in this order; its name is the f-string of the id. *)
Theorem cluster_declares_swimlane_label (g : json) (d : Digraph)
  (swimlanes : list json) :
  generate_bpmn_diagram g = inr d ->
  graph_swimlanes g = inr swimlanes ->
  Forall2 (fun sl c =>
             forall l, py_getitem sl "label" = inr (JStr l) ->
               exists nm fill rest,
                 swimlane_cluster sl = Some nm /\
                 In fill colors /\
                 c = SubgraphStmt nm
                       (AttrStmt None
                          [("label", l); ("style", "filled"); ("color", "#666666");
                           ("fillcolor", fill); ("fontsize", "14");
                           ("fontname", "Arial Bold")] :: rest))
          swimlanes (clusters d).
Proof.
  intros Hgen Hsls.
  destruct (graph_nodes g) as [e | nodes] eqn:Hns.
  { apply generate_inr in Hgen.
    destruct Hgen as (? & ? & ? & ? & ? & ? & ? & _ & _ & Hns' & _).
    rewrite Hns in Hns'. discriminate Hns'. }
  pose proof (rendered_cluster_bodies g d swimlanes nodes Hgen Hsls Hns) as H.
  pose proof (map_eq_Forall2 _ _ _ _ (rendered_clusters g d swimlanes Hgen Hsls)) as Hid.
  pose proof (Forall2_and _ _ _ _ H Hid) as Hboth.
  revert Hboth. apply Forall2_impl.
  intros sl c [(idx & k & label & nm & fill & a & ss
                & Hk & Hlabel & Hfill & Ha & _ & ->) Hname] l Hl.
  rewrite Hl in Hlabel. injection Hlabel as <-.
  cbn in Ha. injection Ha as <-.
  exists nm, fill, ss. repeat split.
  - now rewrite <- Hname.
  - apply list_index_inr in Hfill. eapply nth_error_In. exact Hfill.
Qed.

Lemma cluster_declares_swimlane_label_witness :
  Forall2 (fun sl c =>
             forall l, py_getitem sl "label" = inr (JStr l) ->
               exists nm fill rest,
                 swimlane_cluster sl = Some nm /\
                 In fill colors /\
                 c = SubgraphStmt nm
                       (AttrStmt None
                          [("label", l); ("style", "filled"); ("color", "#666666");
                           ("fillcolor", fill); ("fontsize", "14");
                           ("fontname", "Arial Bold")] :: rest))
          (items (graph_swimlanes scenario)) (clusters (rendered scenario)).
Proof.
  exact (cluster_declares_swimlane_label scenario (rendered scenario)
           (items (graph_swimlanes scenario)) eq_refl eq_refl).
Defined.

(** ** What the renderer raises *)

Lemma map_result_app_inl {A B : Type} (f : A -> result B) (l1 l2 : list A) (x : A)
  (ys : list B) (e : exn) :
  map_result f l1 = inr ys -> f x = inl e -> map_result f (l1 ++ x :: l2) = inl e.
Proof.
  revert ys; induction l1 as [| y l1 IH]; intros ys H Hx; simpl in *.
  - now rewrite Hx.
  - inv_bind H. inv_bind H. rewrite E. cbn [bind]. now rewrite (IH _ E0 Hx).
Qed.

(** X12. A swimlane entry without an [id] makes the renderer raise
    [KeyError] for [id] as soon as the entries before it have been read,
    whatever the nodes and the edges of the graph are: they are not looked at
    before the swimlane ids. *)
Theorem swimlane_without_id_raises_first (g : json) (sls1 sls2 : list json)
  (fields : list (string * json)) :
  graph_swimlanes g = inr (sls1 ++ JDict fields :: sls2) ->
  forallb has_key_id sls1 = true ->
  lookup "id" fields = None ->
  generate_bpmn_diagram g = inl (KeyError "id").
Proof.
  intros Hsls Hsls1 Hid.
  rewrite generate_fields, Hsls. cbn [bind]. rewrite for_each_app.
  destruct (declare_loop_total sls1 [] Hsls1) as [declared ->].
  cbn [bind for_each]. unfold declare_swimlane at 1, py_getitem. now rewrite Hid.
Qed.

Lemma swimlane_without_id_raises_first_witness :
  generate_bpmn_diagram
    (JDict [("swimlanes", JList ([lane "agent" "Agent"]
                                 ++ JDict [("label", JStr "Customer")] :: []));
            ("nodes", JInt 3); ("edges", JNull)])
  = inl (KeyError "id").
Proof.
  exact (swimlane_without_id_raises_first
           (JDict [("swimlanes", JList ([lane "agent" "Agent"]
                                        ++ JDict [("label", JStr "Customer")] :: []));
                   ("nodes", JInt 3); ("edges", JNull)])
           [lane "agent" "Agent"] [] [("label", JStr "Customer")]
           eq_refl eq_refl eq_refl).
Defined.

(** X13. In a graph that renders without its edges, an edge entry without
    [from] raises [KeyError] for [from], and one with [from] and without [to]
    raises [KeyError] for [to], once the edges before it have been added. *)
Theorem edge_without_endpoint_raises (entries : list (string * json))
  (es1 es2 : list json) (fields : list (string * json)) (d0 : Digraph) :
  graph_edges (JDict entries) = inr (es1 ++ JDict fields :: es2) ->
  forallb edge_ok es1 = true ->
  generate_bpmn_diagram (JDict (("edges", JList []) :: entries)) = inr d0 ->
  (lookup "from" fields = None ->
   generate_bpmn_diagram (JDict entries) = inl (KeyError "from")) /\
  (lookup "from" fields <> None -> lookup "to" fields = None ->
   generate_bpmn_diagram (JDict entries) = inl (KeyError "to")).
Proof.
  intros Hedges Hes1 H0.
  apply generate_inr in H0.
  destruct H0 as (sls & ns & es0 & declared & sn & cs & ess0
                  & Hsls & Hd & Hns & Hg & Hcs & _ & _ & _).
  assert (Hraise : forall e, edge_stmt (JDict fields) = inl e ->
                     generate_bpmn_diagram (JDict entries) = inl e).
  { intros e He. rewrite generate_fields.
    change (graph_swimlanes (JDict entries))
      with (graph_swimlanes (JDict (("edges", JList []) :: entries))).
    change (graph_nodes (JDict entries))
      with (graph_nodes (JDict (("edges", JList []) :: entries))).
    rewrite Hsls, Hns. cbn [bind]. rewrite Hd. cbn [bind]. rewrite Hg. cbn [bind].
    rewrite Hcs. cbn [bind]. rewrite Hedges. cbn [bind].
    destruct (map_result_total edge_stmt es1) as [ys Hys].
    { intros x Hx. apply edge_stmt_total. rewrite forallb_forall in Hes1. now apply Hes1. }
    now rewrite (map_result_app_inl edge_stmt es1 es2 (JDict fields) ys e Hys He). }
  split.
  - intros Hfrom. apply Hraise. unfold edge_stmt, py_getitem. now rewrite Hfrom.
  - intros Hfrom Hto. apply Hraise. unfold edge_stmt, py_getitem.
    destruct (lookup "from" fields); [| now elim Hfrom]. cbn [bind ret].
    now rewrite Hto.
Qed.

Lemma edge_without_endpoint_raises_witness :
  generate_bpmn_diagram
    (JDict [("swimlanes", JList [lane "agent" "Agent"]);
            ("edges", JList ([JDict [("from", JStr "a"); ("to", JStr "b")]]
                             ++ JDict [("to", JStr "c")] :: []))])
  = inl (KeyError "from").
Proof.
  refine (proj1 (edge_without_endpoint_raises
                   [("swimlanes", JList [lane "agent" "Agent"]);
                    ("edges", JList ([JDict [("from", JStr "a"); ("to", JStr "b")]]
                                     ++ JDict [("to", JStr "c")] :: []))]
                   [JDict [("from", JStr "a"); ("to", JStr "b")]] []
                   [("to", JStr "c")]
                   (rendered (JDict [("edges", JList []);
                                     ("swimlanes", JList [lane "agent" "Agent"])]))
                   eq_refl eq_refl eq_refl) eq_refl).
Defined.

Lemma bind_inl {A B : Type} (m : result A) (k : A -> result B) (e : exn) :
  bind m k = inl e -> m = inl e \/ exists a, m = inr a /\ k a = inl e.
Proof.
  destruct m as [e' | a]; simpl; intros H; [left; congruence | right; eauto].
Qed.

Lemma for_each_inl {A S : Type} (body : A -> S -> result S) (l : list A) (s : S)
  (e : exn) :
  for_each body l s = inl e -> exists x s', In x l /\ body x s' = inl e.
Proof.
  revert s; induction l as [| x l IH]; intros s H; simpl in H; [discriminate H |].
  apply bind_inl in H. destruct H as [H | (s' & _ & H)].
  - exists x, s. split; [now left | assumption].
  - destruct (IH _ H) as (x' & s'' & Hin & Hx'). exists x', s''. split; [now right | assumption].
Qed.

Lemma map_result_inl {A B : Type} (f : A -> result B) (l : list A) (e : exn) :
  map_result f l = inl e -> exists x, In x l /\ f x = inl e.
Proof.
  induction l as [| x l IH]; intros H; simpl in H; [discriminate H |].
  apply bind_inl in H. destruct H as [H | (y & _ & H)].
  - exists x. split; [now left | assumption].
  - apply bind_inl in H. destruct H as [H | (ys & _ & H)]; [| discriminate H].
    destruct (IH H) as (x' & Hin & Hx'). exists x'. split; [now right | assumption].
Qed.

Lemma py_get_inl (d : json) (k : string) (default : json) (e : exn) :
  py_get d k default = inl e -> e = AttributeError.
Proof.
  destruct d; simpl; try (intros H; now injection H).
  destruct (lookup k entries); discriminate.
Qed.

Lemma py_getitem_inl (d : json) (k : string) (e : exn) :
  py_getitem d k = inl e -> e = KeyError k \/ e = TypeError.
Proof.
  destruct d; simpl; try (intros H; right; now injection H).
  destruct (lookup k entries); [discriminate | intros H; left; now injection H].
Qed.

Lemma py_iter_inl (v : json) (e : exn) : py_iter v = inl e -> e = TypeError.
Proof. destruct v; simpl; intros H; first [discriminate H | now injection H]. Qed.

Lemma py_hash_inl (v : json) (e : exn) : py_hash v = inl e -> e = TypeError.
Proof.
  unfold py_hash. destruct (hashable v); simpl; intros H;
    [discriminate H | now injection H].
Qed.

Lemma quote_inl (v : json) (e : exn) : quote v = inl e -> e = TypeError.
Proof. destruct v; simpl; intros H; first [discriminate H | now injection H]. Qed.

Lemma quote_edge_inl (v : json) (e : exn) : quote_edge v = inl e -> e = AttributeError.
Proof. destruct v; simpl; intros H; first [discriminate H | now injection H]. Qed.

Lemma a_list_inl (label : json) (kwargs : list (string * json)) (e : exn) :
  a_list label kwargs = inl e -> e = TypeError.
Proof.
  unfold a_list. intros H. apply for_each_inl in H.
  destruct H as ([k v] & acc & _ & H). unfold a_pair in H. cbn [fst snd] in H.
  destruct v; simpl in H; first [discriminate H | now injection H].
Qed.

Lemma cluster_name_inl (k : json) (e : exn) : cluster_name k = inl e -> e = TypeError.
Proof.
  unfold cluster_name. destruct (py_str k); simpl; intros H;
    [discriminate H | now injection H].
Qed.

Lemma dict_get_inl (k : json) (d : pydict) (e : exn) :
  dict_get k d = inl e -> e = TypeError.
Proof.
  unfold dict_get. intros H. apply bind_inl in H.
  destruct H as [H | (? & _ & H)]; [now apply py_hash_inl in H | discriminate H].
Qed.

Ltac leaf_exn :=
  match goal with
  | H : py_get _ _ _ = inl _ |- _ => apply py_get_inl in H; subst; reflexivity
  | H : py_getitem _ _ = inl _ |- _ =>
      apply py_getitem_inl in H; destruct H; subst; reflexivity
  | H : py_iter _ = inl _ |- _ => apply py_iter_inl in H; subst; reflexivity
  | H : py_hash _ = inl _ |- _ => apply py_hash_inl in H; subst; reflexivity
  | H : quote _ = inl _ |- _ => apply quote_inl in H; subst; reflexivity
  | H : quote_edge _ = inl _ |- _ => apply quote_edge_inl in H; subst; reflexivity
  | H : a_list _ _ = inl _ |- _ => apply a_list_inl in H; subst; reflexivity
  | H : cluster_name _ = inl _ |- _ => apply cluster_name_inl in H; subst; reflexivity
  | H : dict_get _ _ = inl _ |- _ => apply dict_get_inl in H; subst; reflexivity
  | H : inr _ = inl _ |- _ => discriminate H
  | H : ret _ = inl _ |- _ => discriminate H
  end.

Ltac split_binds H :=
  repeat (apply bind_inl in H; destruct H as [H | (? & ? & H)]; [try leaf_exn |]);
  try leaf_exn.

Lemma node_stmt_inl (node : json) (e : exn) :
  node_stmt node = inl e -> expected_exn e = true.
Proof. unfold node_stmt. intros H. split_binds H. Qed.

Lemma edge_stmt_inl (edge_ : json) (e : exn) :
  edge_stmt edge_ = inl e -> expected_exn e = true.
Proof. unfold edge_stmt. intros H. split_binds H. Qed.

Lemma cluster_stmt_inl (swimlane_nodes : pydict) (entry : nat * json) (e : exn) :
  cluster_stmt swimlane_nodes entry = inl e -> expected_exn e = true.
Proof.
  unfold cluster_stmt. intros H. split_binds H.
  - destruct (palette_index (fst entry)) as [c Hc]. congruence.
  - apply map_result_inl in H. destruct H as (n & _ & H). now apply node_stmt_inl in H.
Qed.

(** X14. Whatever the input, the renderer raises nothing but [KeyError]
    for [id], [label], [from] or [to], [TypeError] and [AttributeError]; the
    palette index never raises [IndexError]. *)
Theorem renderer_exceptions (g : json) (e : exn) :
  generate_bpmn_diagram g = inl e -> expected_exn e = true.
Proof.
  rewrite generate_fields. unfold graph_swimlanes, graph_nodes, graph_edges.
  intros H. split_binds H.
  - apply for_each_inl in H. destruct H as (sl & s' & _ & H).
    unfold declare_swimlane in H. split_binds H.
  - apply for_each_inl in H. destruct H as (n & s' & _ & H).
    unfold group_node, dict_contains in H. split_binds H.
    match goal with
    | H' : (if ?b then _ else _) = inl _ |- _ => destruct b; discriminate H'
    end.
  - apply map_result_inl in H. destruct H as (entry & _ & H).
    now apply cluster_stmt_inl in H.
  - apply map_result_inl in H. destruct H as (edge_ & _ & H).
    now apply edge_stmt_inl in H.
Qed.

Lemma renderer_exceptions_witness : expected_exn (KeyError "id") = true.
Proof.
  exact (renderer_exceptions a_graph_without_id (KeyError "id") eq_refl).
Defined.

(** ** What a failed request shows *)



(** X16. The key test of [main] also passes for a list that holds both key
    names and for a string that contains both; such a response, being no
    object, then fails at the subscript: the run ends with [TypeError],
    shows nothing and leaves the session as it was. *)
Theorem non_object_passing_key_test_raises (st : session_state) (user_input : text)
  (v : json) :
  (20 <= List.length (py_strip user_input))%nat ->
  (forall entries, v <> JDict entries) ->
  accepted v = inr true ->
  main st true user_input true (ValidJson v) = mkRun st [] (Some TypeError).
Proof.
  intros Hlen Hobj Hacc. unfold main. cbn [negb].
  apply Nat.ltb_ge in Hlen. rewrite Hlen.
  cbn [get_structured_process_flow negb]. rewrite Hacc.
  destruct v as [| b | n | s | l | entries]; try reflexivity.
  now elim (Hobj entries).
Qed.

Lemma non_object_passing_key_test_raises_witness :
  main a_generated_session true a_description true
    (ValidJson (JList [JStr "diagram_json"; JStr "bpmn_xml"]))
  = mkRun a_generated_session [] (Some TypeError) /\
  main a_generated_session true a_description true
    (ValidJson (JStr "no bpmn_xml and no diagram_json here"))
  = mkRun a_generated_session [] (Some TypeError).
Proof.
  split.
  - refine (non_object_passing_key_test_raises a_generated_session a_description
              (JList [JStr "diagram_json"; JStr "bpmn_xml"]) _ _ eq_refl).
    + vm_compute. repeat constructor.
    + intros entries H. discriminate H.
  - refine (non_object_passing_key_test_raises a_generated_session a_description
              (JStr "no bpmn_xml and no diagram_json here") _ _ eq_refl).
    + vm_compute. repeat constructor.
    + intros entries H. discriminate H.
Defined.
